(** * ESP32Console: the REPL engine of [src/ESP32Console/Console.cpp]

    A shallow embedding of [Console::beginCommon], [Console::begin],
    [resetAfterCommands] and [Console::repl_task].  The engine is glue
    code: it owns no data structure of its own and talks to the line
    editor (linenoise), the command dispatcher (esp_console), the UART
    driver and the C library.  Every call that crosses that boundary is
    recorded, in program order, in the [trace] of the [World]; the
    pieces of collaborator state the engine depends on (the getopt
    cursor, the standard streams, the registry, the working directory)
    are fields of the [World]. *)

From Stdlib Require Import ZArith List String Ascii Bool Lia.
From Stdlib Require Import HexString DecimalString.
Import ListNotations.

Local Open Scope string_scope.
Local Open Scope Z_scope.

(** ** Error codes of [esp_err.h] *)

Definition esp_err_t := Z.

Definition ESP_OK : esp_err_t := 0.
Definition ESP_FAIL : esp_err_t := -1.
Definition ESP_ERR_INVALID_ARG : esp_err_t := 258.   (* 0x102 *)
Definition ESP_ERR_NOT_FOUND : esp_err_t := 261.     (* 0x105 *)

(** ** Text helpers *)

Definition LF : string := String (ascii_of_nat 10) EmptyString.
Definition CRLF : string := String (ascii_of_nat 13) LF.

(** [printf("%x", v)] for a C [int]: the argument is read as an unsigned
    32-bit value and written in lower-case hexadecimal without padding.
    [HexString.of_N] writes the [0x] prefix of the format string too. *)
Definition to_uint32 (v : Z) : Z := v mod 2 ^ 32.

Definition fmt_0x_x (v : Z) : string := HexString.of_N (Z.to_N (to_uint32 v)).

(** [printf("%d", v)]. *)
Definition fmt_d (v : Z) : string := NilZero.string_of_int (Z.to_int v).

(** [snprintf(buf, size, ...)] keeps at most [size - 1] characters. *)
Definition snprintf (size : nat) (s : string) : string :=
  substring 0 (size - 1) s.

(** [contains pat s]: [pat] occurs in [s] as a substring. *)
Fixpoint contains (pat s : string) : bool :=
  prefix pat s ||
  match s with
  | EmptyString => false
  | String _ s' => contains pat s'
  end.

Module WString.

(** Modelled from the spec: [String::replace] of the Arduino core, which
    is not under src/.  Every occurrence of [find] is replaced, scanning
    from the left; the characters of a replaced occurrence are consumed
    ([skip] counts those still to drop) and the inserted text is not
    scanned again. *)
Fixpoint replace_from (find repl : string) (skip : nat) (s : string) : string :=
  match s with
  | EmptyString => EmptyString
  | String c s' =>
      match skip with
      | S k => replace_from find repl k s'
      | O =>
          if prefix find s
          then repl ++ replace_from find repl (String.length find - 1) s'
          else String c (replace_from find repl 0 s')
      end
  end.

(** An empty receiver or an empty [find] leaves the receiver alone. *)
Definition replace (find repl s : string) : string :=
  match s, find with
  | EmptyString, _ => s
  | _, EmptyString => s
  | _, _ => replace_from find repl 0 s
  end.

End WString.

(** ** Commands and the registry *)

(** What a command callback (a C function from [argc], [argv] to [int]) can do to
    the state shared with the engine: return a status, move the getopt
    cursor, change the working directory, and write output. *)
Record CmdResult := {
  cr_status : Z;
  cr_optind : Z;
  cr_pwd : string;
  cr_output : list string
}.

(** A callback receives [argv], and reads the cursor and the working
    directory. *)
Definition callback := list string -> Z -> string -> CmdResult.

Record Command := {
  cmd_name : string;
  cmd_help : string;
  cmd_hint : option string;
  cmd_func : callback
}.

(** [esp_console_config_t], as filled in by [Console::begin]. *)
Record esp_console_config_t := {
  max_cmdline_length : Z;
  max_cmdline_args : Z;
  hint_color : Z
}.

(** ** The world outside the engine *)

(** A [FILE*]: one of the streams the process started with, or the result
    of [fopen(path, mode)]. *)
Inductive Stream :=
| Inherited (fd : Z)
| Opened (path mode : string).

Inductive LogLevel := LogDebug | LogError.

(** One entry per call that leaves the engine, in program order. *)
Inductive event :=
| EvLog (lvl : LogLevel) (msg : string)
| EvFflush
| EvFsync
| EvSetvbuf
| EvRxLineEndings (channel : Z)
| EvTxLineEndings (channel : Z)
| EvUartDriverInstall (channel : Z)
| EvUartParamConfig (channel baud : Z)
| EvUartUseDriver (channel : Z)
| EvConsoleInit (cfg : esp_console_config_t)
| EvAbort (err : esp_err_t)
| EvFopen (path mode : string)
| EvSetCompletionCallback
| EvSetHintsCallback
| EvHistorySetMaxLen (n : Z)
| EvSetMaxLineLen (n : Z)
| EvHistoryLoad (path : string)
| EvRegister (name : string)
| EvTaskCreate (name : string)
| EvPrintf (msg : string)
| EvProbe
| EvSetDumbMode
| EvLinenoise (prompt : string)
| EvHistoryAdd (line : string)
| EvHistorySave (path : string)
| EvConsoleRun (line : string)
| EvInvoke (name : string) (argv : list string) (cursor : Z)
| EvCmdOutput (text : string)
| EvResetAfterCommands
| EvLinenoiseFree (line : string).

(** What passes through a standard stream: text written to it, or a line
    read from it. *)
Inductive io_event :=
| Wrote (s : Stream) (text : string)
| ReadFrom (s : Stream).

Record World := {
  optind : Z;                       (* getopt's next-argument index *)
  stdin : Stream;
  stdout : Stream;
  stderr : Stream;
  console_config : esp_console_config_t;  (* set by esp_console_init *)
  registry : list Command;          (* esp_console's command list *)
  pwd : string;                     (* what console_getpwd() returns *)
  dumb_mode : bool;                 (* linenoise's dumb-mode flag *)
  keyboard : nat -> option string;  (* result of the k-th linenoise() call;
                                       [None] is a NULL return *)
  reads : nat;                      (* linenoise() calls made so far *)
  tasks : list string;              (* tasks created by xTaskCreate *)
  trace : list event;
  io : list io_event                (* what went through stdin and stdout,
                                       with the stream it went through *)
}.

Definition set_optind (v : Z) (w : World) : World :=
  {| optind := v; stdin := stdin w; stdout := stdout w; stderr := stderr w;
     console_config := console_config w; registry := registry w;
     pwd := pwd w; dumb_mode := dumb_mode w; keyboard := keyboard w;
     reads := reads w; tasks := tasks w; trace := trace w; io := io w |}.

Definition set_stdin (s : Stream) (w : World) : World :=
  {| optind := optind w; stdin := s; stdout := stdout w; stderr := stderr w;
     console_config := console_config w; registry := registry w;
     pwd := pwd w; dumb_mode := dumb_mode w; keyboard := keyboard w;
     reads := reads w; tasks := tasks w; trace := trace w; io := io w |}.

Definition set_stdout (s : Stream) (w : World) : World :=
  {| optind := optind w; stdin := stdin w; stdout := s; stderr := stderr w;
     console_config := console_config w; registry := registry w;
     pwd := pwd w; dumb_mode := dumb_mode w; keyboard := keyboard w;
     reads := reads w; tasks := tasks w; trace := trace w; io := io w |}.

Definition set_stderr (s : Stream) (w : World) : World :=
  {| optind := optind w; stdin := stdin w; stdout := stdout w; stderr := s;
     console_config := console_config w; registry := registry w;
     pwd := pwd w; dumb_mode := dumb_mode w; keyboard := keyboard w;
     reads := reads w; tasks := tasks w; trace := trace w; io := io w |}.

Definition set_console_config (cfg : esp_console_config_t) (w : World) : World :=
  {| optind := optind w; stdin := stdin w; stdout := stdout w; stderr := stderr w;
     console_config := cfg; registry := registry w;
     pwd := pwd w; dumb_mode := dumb_mode w; keyboard := keyboard w;
     reads := reads w; tasks := tasks w; trace := trace w; io := io w |}.

Definition set_registry (r : list Command) (w : World) : World :=
  {| optind := optind w; stdin := stdin w; stdout := stdout w; stderr := stderr w;
     console_config := console_config w; registry := r;
     pwd := pwd w; dumb_mode := dumb_mode w; keyboard := keyboard w;
     reads := reads w; tasks := tasks w; trace := trace w; io := io w |}.

Definition set_pwd (d : string) (w : World) : World :=
  {| optind := optind w; stdin := stdin w; stdout := stdout w; stderr := stderr w;
     console_config := console_config w; registry := registry w;
     pwd := d; dumb_mode := dumb_mode w; keyboard := keyboard w;
     reads := reads w; tasks := tasks w; trace := trace w; io := io w |}.

Definition set_dumb_mode (b : bool) (w : World) : World :=
  {| optind := optind w; stdin := stdin w; stdout := stdout w; stderr := stderr w;
     console_config := console_config w; registry := registry w;
     pwd := pwd w; dumb_mode := b; keyboard := keyboard w;
     reads := reads w; tasks := tasks w; trace := trace w; io := io w |}.

Definition set_reads (n : nat) (w : World) : World :=
  {| optind := optind w; stdin := stdin w; stdout := stdout w; stderr := stderr w;
     console_config := console_config w; registry := registry w;
     pwd := pwd w; dumb_mode := dumb_mode w; keyboard := keyboard w;
     reads := n; tasks := tasks w; trace := trace w; io := io w |}.

Definition set_tasks (t : list string) (w : World) : World :=
  {| optind := optind w; stdin := stdin w; stdout := stdout w; stderr := stderr w;
     console_config := console_config w; registry := registry w;
     pwd := pwd w; dumb_mode := dumb_mode w; keyboard := keyboard w;
     reads := reads w; tasks := t; trace := trace w; io := io w |}.

(** [emit es w]: the calls [es] are made, in that order. *)
Definition emit (es : list event) (w : World) : World :=
  {| optind := optind w; stdin := stdin w; stdout := stdout w; stderr := stderr w;
     console_config := console_config w; registry := registry w;
     pwd := pwd w; dumb_mode := dumb_mode w; keyboard := keyboard w;
     reads := reads w; tasks := tasks w; trace := trace w ++ es; io := io w |}.

(** [record_io es w]: [es] passes through the standard streams. *)
Definition record_io (es : list io_event) (w : World) : World :=
  {| optind := optind w; stdin := stdin w; stdout := stdout w; stderr := stderr w;
     console_config := console_config w; registry := registry w;
     pwd := pwd w; dumb_mode := dumb_mode w; keyboard := keyboard w;
     reads := reads w; tasks := tasks w; trace := trace w;
     io := io w ++ es |}.

(** The calls made on the way from [w] to a later world [w']. *)
Definition emitted (w w' : World) : list event :=
  skipn (List.length (trace w)) (trace w').

(** Modelled from the spec: the value the C library gives [optind] when the
    process starts; the library is not under src/.  The spec calls the
    value [resetAfterCommands] writes the initial value of the cursor, and
    the C library of the target, newlib, does start [optind] at 0, the
    value at which getopt begins a fresh scan. *)
Definition optind_initial : Z := 0.

(** Number of entries of a trace that satisfy [p]. *)
Definition count (p : event -> bool) (t : list event) : nat :=
  List.length (filter p t).

(** ** The platform below the engine *)

(** Constants of the SDK headers, the results of the SDK calls the engine
    checks, the characters the tokenisation of a command line takes for
    white space, and the command descriptors built elsewhere in the
    repository.  None of them is under src/; the engine is modelled over
    all of them. *)
Class Platform := {
  SOC_UART_NUM : Z;
  CONFIG_ESP_CONSOLE_UART_NUM : Z;
  esp_err_to_name : esp_err_t -> string;
  uart_driver_install : Z -> esp_err_t;
  uart_param_config : Z -> Z -> esp_err_t;
  esp_console_init : esp_console_config_t -> esp_err_t;
  esp_console_init_failed :
    esp_console_config_t -> esp_console_config_t -> esp_console_config_t;
  xTaskCreate : string -> bool;          (* [true] is pdTRUE *)
  linenoiseProbe : Z;
  is_space : ascii -> bool;              (* white space, for esp_console *)
  help_command : Command;
  getClearCommand : Command;
  getHistoryCommand : Command;
  getEchoCommand : Command;
  getSetMultilineCommand : Command;
  getEnvCommand : Command;
  getDeclareCommand : Command;
  getSysInfoCommand : Command;
  getRestartCommand : Command;
  getMemInfoCommand : Command;
  getPingCommand : Command;
  getIpconfigCommand : Command;
  getCatCommand : Command;
  getCDCommand : Command;
  getPWDCommand : Command;
  getLsCommand : Command;
  getMvCommand : Command;
  getCPCommand : Command;
  getRMCommand : Command;
  getRMDirCommand : Command;
  getEditCommand : Command
}.

(** The members of [Console] the engine reads. *)
Record Console := {
  max_history_len_ : Z;
  max_cmdline_len_ : Z;
  max_cmdline_args_ : Z;
  prompt_ : string;
  history_save_path_ : option string     (* [None] is a null pointer *)
}.

(** ** The dispatcher *)

Module EspConsole.

Inductive split_state := SS_SPACE | SS_ARG | SS_QUOTED_ARG.

Definition is_quote (c : ascii) : bool := Ascii.eqb c (ascii_of_nat 34).

Definition push (cur : string) (c : ascii) : string :=
  cur ++ String c EmptyString.

(** Modelled from the spec: the tokenisation of a command line, which
    esp_console does and which is not under src/.  Arguments are
    separated by white space; a double quote opens and closes a stretch
    in which white space does not separate. *)
Fixpoint split_from {P : Platform} (st : split_state) (cur : string)
    (s : string) : list string :=
  match s with
  | EmptyString =>
      match st with
      | SS_SPACE => []
      | _ => [cur]
      end
  | String c s' =>
      match st with
      | SS_SPACE =>
          if is_space c then split_from SS_SPACE EmptyString s'
          else if is_quote c then split_from SS_QUOTED_ARG EmptyString s'
          else split_from SS_ARG (push EmptyString c) s'
      | SS_ARG =>
          if is_space c then cur :: split_from SS_SPACE EmptyString s'
          else if is_quote c then split_from SS_QUOTED_ARG cur s'
          else split_from SS_ARG (push cur c) s'
      | SS_QUOTED_ARG =>
          if is_quote c then split_from SS_ARG cur s'
          else split_from SS_QUOTED_ARG (push cur c) s'
      end
  end.

Definition esp_console_split_argv {P : Platform} (line : string) : list string :=
  split_from SS_SPACE EmptyString line.

(** Modelled from the spec: lookup by exact name in the registry. *)
Definition find_command_by_name (name : string) (reg : list Command)
  : option Command :=
  find (fun cmd => String.eqb (cmd_name cmd) name) reg.

(** Modelled from the spec: [register(descriptor)] adds a command to the
    registry; esp_console's list is not under src/.  The spec leaves
    open what a second registration of a name does, and nothing below
    depends on it. *)
Definition esp_console_cmd_register (cmd : Command) (w : World) : World :=
  emit [EvRegister (cmd_name cmd)] (set_registry (registry w ++ [cmd]) w).

(** The state a callback leaves behind. *)
Definition apply_result (r : CmdResult) (w : World) : World :=
  record_io (map (Wrote (stdout w)) (cr_output r))
    (emit (map EvCmdOutput (cr_output r))
       (set_pwd (cr_pwd r) (set_optind (cr_optind r) w))).

(** Modelled from the spec: [esp_console_run(line, &ret)] of esp_console,
    which is not under src/ (section 4.4 of the spec).  A line longer
    than the configured maximum is rejected before tokenisation; a line
    without a token is "empty"; a leading token that names no command
    is "not found"; otherwise the callback runs, unless the line has
    more arguments than the configured maximum.  The spec names no code
    for the two rejections; any code other than [ESP_OK],
    [ESP_ERR_NOT_FOUND] and [ESP_ERR_INVALID_ARG] is classified alike
    by the caller, and [ESP_FAIL] stands for it.
    The second component is what is stored through [ret]; the caller
    reads it only when the first one is [ESP_OK]. *)
Definition esp_console_run {P : Platform} (line : string) (w : World)
  : esp_err_t * Z * World :=
  let w0 := emit [EvConsoleRun line] w in
  let cfg := console_config w in
  if max_cmdline_length cfg <? Z.of_nat (String.length line)
  then (ESP_FAIL, 0, w0)
  else
    match esp_console_split_argv line with
    | [] => (ESP_ERR_INVALID_ARG, 0, w0)
    | name :: args =>
        match find_command_by_name name (registry w) with
        | None => (ESP_ERR_NOT_FOUND, 0, w0)
        | Some cmd =>
            if max_cmdline_args cfg <? Z.of_nat (List.length (name :: args))
            then (ESP_FAIL, 0, w0)
            else
              let r := cmd_func cmd (name :: args) (optind w) (pwd w) in
              (ESP_OK, cr_status r,
               apply_result r
                 (emit [EvInvoke name (name :: args) (optind w)] w0))
        end
    end.

End EspConsole.

Import EspConsole.

(** ** The line editor *)

Module Linenoise.

(** [linenoise(prompt)]: the next line the user submits, or NULL.  The
    prompt is written to [stdout] and the line read from [stdin]. *)
Definition linenoise (prompt : string) (w : World) : option string * World :=
  (keyboard w (reads w),
   record_io [Wrote (stdout w) prompt; ReadFrom (stdin w)]
     (emit [EvLinenoise prompt] (set_reads (S (reads w)) w))).

Definition linenoiseHistoryAdd (line : string) : World -> World :=
  emit [EvHistoryAdd line].

Definition linenoiseHistorySave (path : string) : World -> World :=
  emit [EvHistorySave path].

Definition linenoiseHistoryLoad (path : string) : World -> World :=
  emit [EvHistoryLoad path].

Definition linenoiseFree (line : string) : World -> World :=
  emit [EvLinenoiseFree line].

Definition linenoiseSetDumbMode (w : World) : World :=
  emit [EvSetDumbMode] (set_dumb_mode true w).

Definition linenoiseIsDumbMode (w : World) : bool := dumb_mode w.

End Linenoise.

Import Linenoise.

(** Modelled from the spec: [console_getpwd()] of Helpers/PWDHelpers, which
    is not under src/: the current working directory. *)
Definition console_getpwd (w : World) : string := pwd w.

(** [printf] writes to the stream [stdout] is at that moment. *)
Definition printf (msg : string) (w : World) : World :=
  record_io [Wrote (stdout w) msg] (emit [EvPrintf msg] w).
Definition log_d (msg : string) : World -> World := emit [EvLog LogDebug msg].
Definition log_e (msg : string) : World -> World := emit [EvLog LogError msg].

(** ** A monad for code that may abort

    [Console::begin] wraps three SDK calls in [ESP_ERROR_CHECK], which
    ends the program when the call does not answer [ESP_OK]. *)

Inductive Result (A : Type) :=
| Done (a : A) (w : World)
| Abort (err : esp_err_t) (w : World).

Arguments Done {A} a w.
Arguments Abort {A} err w.

Definition M (A : Type) := World -> Result A.

Definition ret {A} (a : A) : M A := fun w => Done a w.

Definition bind {A B} (m : M A) (k : A -> M B) : M B :=
  fun w =>
    match m w with
    | Done a w' => k a w'
    | Abort e w' => Abort e w'
    end.

Definition lift (f : World -> World) : M unit := fun w => Done tt (f w).

Declare Scope console_scope.
Delimit Scope console_scope with console.
Notation "x <- m ;; k" := (bind m (fun x => k))
  (at level 61, m at next level, right associativity) : console_scope.
Notation "m ;; k" := (bind m (fun _ => k))
  (at level 61, right associativity) : console_scope.

(** Modelled from the spec: the macro [ESP_ERROR_CHECK] of esp_err.h, which
    is not under src/: a failure of the checked call is fatal, and nothing
    after it runs (section 4.1 of the spec). *)
Definition ESP_ERROR_CHECK (m : M esp_err_t) : M unit :=
  (err <- m ;;
   if err =? ESP_OK then ret tt
   else fun w => Abort err (emit [EvAbort err] w))%console.

(** The world a computation ends in, aborted or not. *)
Definition final {A} (r : Result A) : World :=
  match r with
  | Done _ w => w
  | Abort _ w => w
  end.

Definition aborted {A} (r : Result A) : bool :=
  match r with
  | Done _ _ => false
  | Abort _ _ => true
  end.

(** ** The engine *)

Section Engine.

Context {P : Platform}.

Local Open Scope console_scope.

(** Modelled from the spec: [Console::registerCommand] of Console.h, which
    is not under src/: it hands the descriptor to the registry. *)
Definition registerCommand (cmd : Command) : World -> World :=
  esp_console_cmd_register cmd.

Definition esp_console_register_help_command : World -> World :=
  esp_console_cmd_register help_command.

(** A sequence of calls, first to last. *)
Definition seq (fs : list (World -> World)) (w : World) : World :=
  fold_left (fun acc f => f acc) fs w.

Definition registerCoreCommands : World -> World :=
  seq [ registerCommand getClearCommand;
        registerCommand getHistoryCommand;
        registerCommand getEchoCommand;
        registerCommand getSetMultilineCommand;
        registerCommand getEnvCommand;
        registerCommand getDeclareCommand ].

Definition registerSystemCommands : World -> World :=
  seq [ registerCommand getSysInfoCommand;
        registerCommand getRestartCommand;
        registerCommand getMemInfoCommand ].

Definition registerNetworkCommands : World -> World :=
  seq [ registerCommand getPingCommand;
        registerCommand getIpconfigCommand ].

Definition registerVFSCommands : World -> World :=
  seq [ registerCommand getCatCommand;
        registerCommand getCDCommand;
        registerCommand getPWDCommand;
        registerCommand getLsCommand;
        registerCommand getMvCommand;
        registerCommand getCPCommand;
        registerCommand getRMCommand;
        registerCommand getRMDirCommand;
        registerCommand getEditCommand ].

(** [if (history_save_path_) f(history_save_path_);] *)
Definition with_history_path (c : Console) (f : string -> World -> World)
  : World -> World :=
  match history_save_path_ c with
  | Some path => f path
  | None => fun w => w
  end.

Definition beginCommon (c : Console) : World -> World :=
  seq [ emit [EvSetCompletionCallback];
        emit [EvSetHintsCallback];
        emit [EvHistorySetMaxLen (max_history_len_ c)];
        emit [EvSetMaxLineLen (max_cmdline_len_ c)];
        with_history_path c linenoiseHistoryLoad;
        esp_console_register_help_command;
        registerCoreCommands ].

(** [snprintf(path, 12, "/dev/uart/%d", channel)] *)
Definition uart_path (channel : Z) : string :=
  snprintf 12 ("/dev/uart/" ++ fmt_d channel).

(** The block of [begin] that replaces the standard streams. *)
Definition reopen_streams (channel : Z) (w : World) : World :=
  let path := uart_path channel in
  let w1 := set_stdin (Opened path "r") (emit [EvFopen path "r"] w) in
  let w2 := set_stdout (Opened path "w") (emit [EvFopen path "w"] w1) in
  set_stderr (stdout w2) w2.

Definition call_uart_driver_install (channel : Z) : M esp_err_t :=
  fun w => Done (uart_driver_install channel)
                (emit [EvUartDriverInstall channel] w).

Definition call_uart_param_config (channel baud : Z) : M esp_err_t :=
  fun w => Done (uart_param_config channel baud)
                (emit [EvUartParamConfig channel baud] w).

(** The configuration is kept by esp_console when the call succeeds.
    What esp_console holds after a failed call is for the SDK to say:
    [esp_console_init_failed] of the platform gives it, from the
    configuration offered and the one held before. *)
Definition call_esp_console_init (cfg : esp_console_config_t) : M esp_err_t :=
  fun w =>
    let w1 := emit [EvConsoleInit cfg] w in
    let err := esp_console_init cfg in
    Done err
      (set_console_config
         (if err =? ESP_OK then cfg
          else esp_console_init_failed cfg (console_config w))
         w1).

(** The task exists afterwards when the call answers pdTRUE. *)
Definition call_xTaskCreate (name : string) : M bool :=
  fun w =>
    let w1 := emit [EvTaskCreate name] w in
    let ok := xTaskCreate name in
    Done ok (if ok then set_tasks (tasks w1 ++ [name]) w1 else w1).

(** [Console::begin(baud, rxPin, txPin, channel)]; [channel] is a
    [uint8_t].  The pins are not used by the body. *)
Definition begin (c : Console) (baud rxPin txPin channel : Z) : M unit :=
  lift (log_d "Initialize console") ;;
  if channel >=? SOC_UART_NUM
  then
    lift (log_e ("Serial number is invalid, please use numers from 0 to "
                 ++ fmt_d (SOC_UART_NUM - 1)))
  else
    lift (emit [EvFflush; EvFsync]) ;;
    lift (emit [EvSetvbuf]) ;;
    lift (emit [EvRxLineEndings channel]) ;;
    lift (emit [EvTxLineEndings channel]) ;;
    ESP_ERROR_CHECK (call_uart_driver_install channel) ;;
    ESP_ERROR_CHECK (call_uart_param_config channel baud) ;;
    lift (emit [EvUartUseDriver channel]) ;;
    ESP_ERROR_CHECK
      (call_esp_console_init
         {| max_cmdline_length := max_cmdline_len_ c;
            max_cmdline_args := max_cmdline_args_ c;
            hint_color := 333333 |}) ;;
    (if negb (channel =? CONFIG_ESP_CONSOLE_UART_NUM)
     then lift (reopen_streams channel)
     else ret tt) ;;
    lift (beginCommon c) ;;
    created <- call_xTaskCreate "console_repl" ;;
    if created then ret tt
    else lift (log_e "Could not start REPL task!").

(** [resetAfterCommands()]: the call is recorded, and the cursor is
    cleared. *)
Definition resetAfterCommands (w : World) : World :=
  set_optind 0 (emit [EvResetAfterCommands] w).

(** The prompt shown by one pass of the loop. *)
Definition render_prompt (c : Console) (w : World) : string :=
  WString.replace "%pwd%" (console_getpwd w) (prompt_ c).

Definition msg_unrecognized : string := "Unrecognized command" ++ LF.

Definition msg_nonzero (ret : Z) : string :=
  "Command returned non-zero error code: " ++ fmt_0x_x ret
    ++ " (" ++ esp_err_to_name ret ++ ")" ++ LF.

Definition msg_internal (err : esp_err_t) : string :=
  "Internal error: " ++ esp_err_to_name err ++ LF.

(** The [if] chain after the dispatcher returns. *)
Definition report (err : esp_err_t) (ret : Z) (w : World) : World :=
  if err =? ESP_ERR_NOT_FOUND then printf msg_unrecognized w
  else if err =? ESP_ERR_INVALID_ARG then w
  else if (err =? ESP_OK) && negb (ret =? ESP_OK) then printf (msg_nonzero ret) w
  else if negb (err =? ESP_OK) then printf (msg_internal err) w
  else w.

(** One pass through the body of [while (1)] in [repl_task]. *)
Definition repl_iteration (c : Console) (w : World) : World :=
  let prompt := render_prompt c w in
  let '(line, w1) := linenoise prompt w in
  match line with
  | None => log_d "empty line" w1
  | Some line =>
      let w2 := log_d ("Line parsed: " ++ line) w1 in
      let w3 := linenoiseHistoryAdd line w2 in
      let w4 := with_history_path c linenoiseHistorySave w3 in
      let '(err, ret, w5) := esp_console_run line w4 in
      let w6 := resetAfterCommands w5 in
      let w7 := report err ret w6 in
      linenoiseFree line w7
  end.

(** The first [n] passes of the loop, which has no exit. *)
Fixpoint repl_loop (c : Console) (n : nat) (w : World) : World :=
  match n with
  | O => w
  | S n' => repl_loop c n' (repl_iteration c w)
  end.

Definition banner : string :=
  CRLF ++ "Type 'help' to get the list of commands." ++ CRLF
    ++ "Use UP/DOWN arrows to navigate through command history." ++ CRLF
    ++ "Press TAB when typing command name to auto-complete." ++ CRLF.

Definition dumb_notice : string :=
  CRLF ++ "Your terminal application does not support escape sequences."
    ++ LF ++ LF ++ "Line editing and history features are disabled."
    ++ LF ++ LF ++ "On Windows, try using Putty instead." ++ CRLF.

(** [repl_task] up to the loop. *)
Definition repl_setup (c : Console) (w : World) : World :=
  let w1 := emit [EvSetvbuf] w in
  let w2 := printf banner w1 in
  let w3 := emit [EvProbe] w2 in
  let w4 := if negb (linenoiseProbe =? 0) then linenoiseSetDumbMode w3 else w3 in
  let w5 := if linenoiseIsDumbMode w4 then printf dumb_notice w4 else w4 in
  emit [EvSetMaxLineLen (max_cmdline_len_ c)] w5.

(** [repl_task], cut after [n] passes of its loop. *)
Definition repl_task (c : Console) (n : nat) (w : World) : World :=
  repl_loop c n (repl_setup c w).

End Engine.

(** ** A concrete platform, console and session

    Used to run the engine on concrete inputs. *)

Module Sample.

(** A command that only returns [status]. *)
Definition stub (name : string) (status : Z) : Command :=
  {| cmd_name := name; cmd_help := EmptyString; cmd_hint := None;
     cmd_func := fun _ cursor dir =>
       {| cr_status := status; cr_optind := cursor; cr_pwd := dir;
          cr_output := [] |} |}.

(** A command that parses its arguments with getopt, which leaves the
    cursor behind the last argument, and fails with status 7. *)
Definition fail7 : Command :=
  {| cmd_name := "fail7"; cmd_help := "always fails"; cmd_hint := None;
     cmd_func := fun argv _ dir =>
       {| cr_status := 7; cr_optind := Z.of_nat (List.length argv);
          cr_pwd := dir; cr_output := ["failing"] |} |}.

Definition err_name (e : esp_err_t) : string :=
  if e =? 0 then "ESP_OK"
  else if e =? -1 then "ESP_FAIL"
  else if e =? 257 then "ESP_ERR_NO_MEM"
  else if e =? 258 then "ESP_ERR_INVALID_ARG"
  else if e =? 259 then "ESP_ERR_INVALID_STATE"
  else if e =? 261 then "ESP_ERR_NOT_FOUND"
  else "UNKNOWN ERROR".

(** An ESP32 (three UARTs, console on UART 0) whose driver installation
    answers [install]. *)
Definition board (install : Z -> esp_err_t) : Platform :=
  {| SOC_UART_NUM := 3;
     CONFIG_ESP_CONSOLE_UART_NUM := 0;
     esp_err_to_name := err_name;
     uart_driver_install := install;
     uart_param_config := fun _ _ => ESP_OK;
     esp_console_init := fun _ => ESP_OK;
     esp_console_init_failed := fun _ held => held;
     xTaskCreate := fun _ => true;
     linenoiseProbe := 0;
     is_space := fun c => Ascii.eqb c " ";
     help_command := stub "help" 0;
     getClearCommand := stub "clear" 0;
     getHistoryCommand := stub "history" 0;
     getEchoCommand := stub "echo" 0;
     getSetMultilineCommand := stub "multiline_mode" 0;
     getEnvCommand := stub "env" 0;
     getDeclareCommand := stub "declare" 0;
     getSysInfoCommand := stub "sysinfo" 0;
     getRestartCommand := stub "restart" 0;
     getMemInfoCommand := stub "meminfo" 0;
     getPingCommand := stub "ping" 0;
     getIpconfigCommand := stub "ipconfig" 0;
     getCatCommand := stub "cat" 0;
     getCDCommand := stub "cd" 0;
     getPWDCommand := stub "pwd" 0;
     getLsCommand := stub "ls" 0;
     getMvCommand := stub "mv" 0;
     getCPCommand := stub "cp" 0;
     getRMCommand := stub "rm" 0;
     getRMDirCommand := stub "rmdir" 0;
     getEditCommand := stub "edit" 0 |}.

Definition esp32 : Platform := board (fun _ => ESP_OK).

(** The same board with the UART driver already installed: a second
    installation is refused. *)
Definition esp32_uart_taken : Platform := board (fun _ => ESP_FAIL).

Definition console : Console :=
  {| max_history_len_ := 40;
     max_cmdline_len_ := 256;
     max_cmdline_args_ := 8;
     prompt_ := "%pwd% > ";
     history_save_path_ := Some "/data/.history" |}.

Definition console_no_history : Console :=
  {| max_history_len_ := 40;
     max_cmdline_len_ := 256;
     max_cmdline_args_ := 8;
     prompt_ := "ESP32 > ";
     history_save_path_ := None |}.

(** What the user submits: NULL once, then four lines, then NULL for
    ever. *)
Definition typed (k : nat) : option string :=
  nth k [None; Some "fail7 -x"; Some "bogus"; Some "   "; Some "echo hi"]%list None.

(** The process as it starts: nothing has been called yet. *)
Definition boot : World :=
  {| optind := optind_initial;
     stdin := Inherited 0; stdout := Inherited 1; stderr := Inherited 2;
     console_config :=
       {| max_cmdline_length := 0; max_cmdline_args := 0; hint_color := 0 |};
     registry := [];
     pwd := "/data";
     dumb_mode := false;
     keyboard := typed;
     reads := 0;
     tasks := [];
     trace := [];
     io := [] |}.

(** The world in which the worker starts: after a successful [begin] on
    UART 0, with [fail7] registered by the application. *)
Definition started : World :=
  final (@begin esp32 console 115200 3 1 0 (registerCommand fail7 boot)).

End Sample.

(** ** Observations on traces *)

Definition is_printf (e : event) : bool :=
  match e with EvPrintf _ => true | _ => false end.

Definition is_invoke (e : event) : bool :=
  match e with EvInvoke _ _ _ => true | _ => false end.

Definition is_reset (e : event) : bool :=
  match e with EvResetAfterCommands => true | _ => false end.

Definition is_linenoise (e : event) : bool :=
  match e with EvLinenoise _ => true | _ => false end.

Definition is_history_add (e : event) : bool :=
  match e with EvHistoryAdd _ => true | _ => false end.

Definition is_history_save (e : event) : bool :=
  match e with EvHistorySave _ => true | _ => false end.

Definition is_history_load (e : event) : bool :=
  match e with EvHistoryLoad _ => true | _ => false end.

Definition is_history_file (e : event) : bool :=
  is_history_save e || is_history_load e.

Definition is_fopen (e : event) : bool :=
  match e with EvFopen _ _ => true | _ => false end.

Definition is_task_create (e : event) : bool :=
  match e with EvTaskCreate _ => true | _ => false end.

(** What a callback does while the dispatcher runs it. *)
Definition is_command_activity (e : event) : bool :=
  match e with
  | EvInvoke _ _ _ | EvCmdOutput _ => true
  | _ => false
  end.

(** The calls with which a pass of the loop takes a line [l] into the
    history, before it is dispatched. *)
Definition history_calls (c : Console) (l : string) : list event :=
  EvHistoryAdd l ::
  match history_save_path_ c with
  | Some path => [EvHistorySave path]
  | None => []
  end.

(** The calls of a pass of the loop up to the dispatcher. *)
Definition intake (prompt : string) (c : Console) (l : string) : list event :=
  [EvLinenoise prompt; EvLog LogDebug ("Line parsed: " ++ l)]
    ++ history_calls c l.

(** A line made of white space only; the empty line is one. *)
Fixpoint blank {P : Platform} (s : string) : bool :=
  match s with
  | EmptyString => true
  | String c s' => is_space c && blank s'
  end.

(** The cursor value with which each callback was entered. *)
Fixpoint entry_cursors (t : list event) : list Z :=
  match t with
  | [] => []
  | EvInvoke _ _ cursor :: t' => cursor :: entry_cursors t'
  | _ :: t' => entry_cursors t'
  end.

(** Index of the first entry of a trace that satisfies [p]. *)
Fixpoint position (p : event -> bool) (t : list event) : option nat :=
  match t with
  | [] => None
  | e :: t' => if p e then Some O else option_map S (position p t')
  end.

Definition is_free (e : event) : bool :=
  match e with EvLinenoiseFree _ => true | _ => false end.

Definition is_console_run (e : event) : bool :=
  match e with EvConsoleRun _ => true | _ => false end.

(** The world handed to the dispatcher by a pass of the loop that read
    the line [l] in the world [w]. *)
Definition at_dispatch {P : Platform} (c : Console) (l : string) (w : World)
  : World :=
  with_history_path c linenoiseHistorySave
    (linenoiseHistoryAdd l
       (log_d ("Line parsed: " ++ l)
          (snd (linenoise (render_prompt c w) w)))).

(** The configuration [Console::begin] hands to [esp_console_init]. *)
Definition config_of (c : Console) : esp_console_config_t :=
  {| max_cmdline_length := max_cmdline_len_ c;
     max_cmdline_args := max_cmdline_args_ c;
     hint_color := 333333 |}.

(** The commands [beginCommon] registers, in order. *)
Definition common_commands {P : Platform} : list Command :=
  [help_command; getClearCommand; getHistoryCommand; getEchoCommand;
   getSetMultilineCommand; getEnvCommand; getDeclareCommand].

(** The call with which [beginCommon] reads the history file. *)
Definition history_load_calls (c : Console) : list event :=
  match history_save_path_ c with
  | Some path => [EvHistoryLoad path]
  | None => []
  end.

(** The calls with which [begin] replaces the standard streams. *)
Definition reopen_calls {P : Platform} (channel : Z) : list event :=
  if negb (channel =? CONFIG_ESP_CONSOLE_UART_NUM)
  then [EvFopen (uart_path channel) "r"; EvFopen (uart_path channel) "w"]
  else [].

(** The world [begin] leaves when it runs to its end. *)
Definition begin_completed {P : Platform} (c : Console) (baud channel : Z)
    (w : World) : World :=
  let w1 :=
    emit [EvUartUseDriver channel]
      (emit [EvUartParamConfig channel baud]
         (emit [EvUartDriverInstall channel]
            (emit [EvTxLineEndings channel]
               (emit [EvRxLineEndings channel]
                  (emit [EvSetvbuf]
                     (emit [EvFflush; EvFsync]
                        (log_d "Initialize console" w))))))) in
  let w2 := set_console_config (config_of c)
              (emit [EvConsoleInit (config_of c)] w1) in
  let w3 := if negb (channel =? CONFIG_ESP_CONSOLE_UART_NUM)
            then reopen_streams channel w2 else w2 in
  let w4 := emit [EvTaskCreate "console_repl"] (beginCommon c w3) in
  if xTaskCreate "console_repl"
  then set_tasks (tasks w4 ++ ["console_repl"]) w4
  else log_e "Could not start REPL task!" w4.

(** The calls [repl_task] makes before its loop. *)
Definition setup_calls {P : Platform} (c : Console) (w : World) : list event :=
  [EvSetvbuf; EvPrintf banner; EvProbe]
    ++ (if negb (linenoiseProbe =? 0) then [EvSetDumbMode] else [])
    ++ (if (negb (linenoiseProbe =? 0) || dumb_mode w)%bool
        then [EvPrintf dumb_notice] else [])
    ++ [EvSetMaxLineLen (max_cmdline_len_ c)].

(** The sample session, pass by pass. *)
Definition sample_ready : World :=
  @repl_setup Sample.esp32 Sample.console Sample.started.

Definition sample_before_pass (k : nat) : World :=
  @repl_loop Sample.esp32 Sample.console k sample_ready.

Definition sample_pass (k : nat) : list event :=
  emitted (sample_before_pass k)
    (@repl_iteration Sample.esp32 Sample.console (sample_before_pass k)).

(** ** Observations on whole runs *)

(** The lines a trace hands to a call picked out by [sel], in order. *)
Fixpoint lines_of (sel : event -> option string) (t : list event) : list string :=
  match t with
  | [] => []
  | e :: t' =>
      match sel e with
      | Some l => l :: lines_of sel t'
      | None => lines_of sel t'
      end
  end.

Definition run_line (e : event) : option string :=
  match e with EvConsoleRun l => Some l | _ => None end.

Definition added_line (e : event) : option string :=
  match e with EvHistoryAdd l => Some l | _ => None end.

Definition freed_line (e : event) : option string :=
  match e with EvLinenoiseFree l => Some l | _ => None end.

(** The lines [n] successive calls of [linenoise] return, from the
    [start]-th call on, NULL returns left out. *)
Fixpoint received (kbd : nat -> option string) (start n : nat) : list string :=
  match n with
  | O => []
  | S n' =>
      match kbd start with
      | Some l => l :: received kbd (S start) n'
      | None => received kbd (S start) n'
      end
  end.

(** The line a pass of the loop reads in [w], as a list: empty for a NULL
    return. *)
Definition line_read (w : World) : list string :=
  match keyboard w (reads w) with
  | Some l => [l]
  | None => []
  end.

(** [printf] of exactly the text [m]. *)
Definition is_printf_of (m : string) (e : event) : bool :=
  match e with
  | EvPrintf m' => String.eqb m' m
  | _ => false
  end.

(** A text that begins with a carriage return, as the banner and the
    dumb-terminal notice do. *)
Definition starts_with_cr (m : string) : bool :=
  match m with
  | String c _ => Ascii.eqb c (ascii_of_nat 13)
  | EmptyString => false
  end.

Definition is_register (e : event) : bool :=
  match e with EvRegister _ => true | _ => false end.

Definition is_console_init (e : event) : bool :=
  match e with EvConsoleInit _ => true | _ => false end.

(** The batches of the four registration functions, in source order. *)
Definition core_commands {P : Platform} : list Command :=
  [getClearCommand; getHistoryCommand; getEchoCommand;
   getSetMultilineCommand; getEnvCommand; getDeclareCommand].

Definition system_commands {P : Platform} : list Command :=
  [getSysInfoCommand; getRestartCommand; getMemInfoCommand].

Definition network_commands {P : Platform} : list Command :=
  [getPingCommand; getIpconfigCommand].

Definition vfs_commands {P : Platform} : list Command :=
  [getCatCommand; getCDCommand; getPWDCommand; getLsCommand; getMvCommand;
   getCPCommand; getRMCommand; getRMDirCommand; getEditCommand].

(** The registry has a command under this name. *)
Definition resolvable (name : string) (reg : list Command) : bool :=
  match find_command_by_name name reg with
  | Some _ => true
  | None => false
  end.

(** The calls [begin] makes up to and including [esp_console_init]. *)
Definition transport_calls (c : Console) (baud channel : Z) : list event :=
  [EvLog LogDebug "Initialize console"; EvFflush; EvFsync; EvSetvbuf;
   EvRxLineEndings channel; EvTxLineEndings channel;
   EvUartDriverInstall channel; EvUartParamConfig channel baud;
   EvUartUseDriver channel; EvConsoleInit (config_of c)].

(** The channels a [uint8_t] can hold. *)
Definition uint8_values : list Z := map Z.of_nat (List.seq 0 256).

(** A command that changes to the directory its first argument names and
    leaves the cursor behind that argument. *)
Definition sample_chdir : Command :=
  {| cmd_name := "chdir"; cmd_help := "change directory"; cmd_hint := None;
     cmd_func := fun argv _ _ =>
       {| cr_status := 0; cr_optind := 2; cr_pwd := nth 1 argv "/";
          cr_output := [] |} |}.

(** A worker in [/data] whose user types [chdir /tmp] over and over. *)
Definition sample_chdir_world : World :=
  {| optind := optind_initial;
     stdin := Inherited 0; stdout := Inherited 1; stderr := Inherited 2;
     console_config := config_of Sample.console;
     registry := [sample_chdir];
     pwd := "/data";
     dumb_mode := false;
     keyboard := fun _ => Some "chdir /tmp";
     reads := 0;
     tasks := ["console_repl"];
     trace := [];
     io := [] |}.

(** The sample board started on UART 2 from [Sample.boot]. *)
Definition sample_begun : World :=
  final (@begin Sample.esp32 Sample.console 115200 3 1 2 Sample.boot).




(** * Proofs *)

(** Unfolds the record updates of the world. *)
Ltac world :=
  cbn [trace optind stdin stdout stderr console_config registry pwd
       dumb_mode keyboard reads tasks io record_io
       emit set_optind set_stdin set_stdout set_stderr set_console_config
       set_registry set_pwd set_dumb_mode set_reads set_tasks
       printf log_d log_e linenoise linenoiseHistoryAdd linenoiseHistorySave
       linenoiseHistoryLoad linenoiseFree linenoiseSetDumbMode
       linenoiseIsDumbMode console_getpwd apply_result fst snd] in *.

(** ** Traces *)

Lemma emitted_app (w w' : World) (d : list event) :
  trace w' = (trace w ++ d)%list -> emitted w w' = d.
Proof.
  intros H. unfold emitted. rewrite H.
  rewrite skipn_app, skipn_all, Nat.sub_diag. reflexivity.
Qed.

Lemma emitted_same (w : World) : emitted w w = [].
Proof. apply emitted_app. rewrite app_nil_r. reflexivity. Qed.

Lemma count_app (p : event -> bool) (t1 t2 : list event) :
  count p (t1 ++ t2) = (count p t1 + count p t2)%nat.
Proof. unfold count. rewrite filter_app, length_app. reflexivity. Qed.

Lemma count_cons (p : event -> bool) (e : event) (t : list event) :
  count p (e :: t) = ((if p e then 1 else 0) + count p t)%nat.
Proof. unfold count. simpl. destruct (p e); reflexivity. Qed.

(** Entries of one kind are not counted as entries of a disjoint kind. *)
Lemma filter_disjoint (p q : event -> bool) (t : list event) :
  (forall e, q e = true -> p e = false) ->
  Forall (fun e => q e = true) t -> filter p t = [].
Proof.
  intros Hpq Hall. induction Hall as [|e t He _ IH]; simpl; [reflexivity|].
  rewrite (Hpq e He). exact IH.
Qed.

Lemma count_disjoint (p q : event -> bool) (t : list event) :
  (forall e, q e = true -> p e = false) ->
  Forall (fun e => q e = true) t -> count p t = 0%nat.
Proof.
  intros Hpq Hall. unfold count. rewrite (filter_disjoint p q t Hpq Hall).
  reflexivity.
Qed.

Lemma printfs_are_printf (msgs : list string) :
  Forall (fun e => is_printf e = true) (map EvPrintf msgs).
Proof. induction msgs; simpl; constructor; auto. Qed.

Lemma outputs_are_activity (out : list string) :
  Forall (fun e => is_command_activity e = true) (map EvCmdOutput out).
Proof. induction out; simpl; constructor; auto. Qed.

Lemma count_le (p q : event -> bool) (t : list event) :
  (forall e, p e = true -> q e = true) -> (count p t <= count q t)%nat.
Proof.
  intros Hpq. unfold count. induction t as [|e t IH]; simpl; [lia|].
  destruct (p e) eqn:Hp.
  - rewrite (Hpq e Hp). simpl. lia.
  - destruct (q e); simpl; lia.
Qed.

Lemma count_invoke_outputs (out : list string) :
  count is_invoke (map EvCmdOutput out) = 0%nat.
Proof. unfold count. induction out; simpl; auto. Qed.

Lemma entry_cursors_app (t1 t2 : list event) :
  entry_cursors (t1 ++ t2) = (entry_cursors t1 ++ entry_cursors t2)%list.
Proof.
  induction t1 as [|e t1 IH]; simpl; [reflexivity|].
  destruct e; simpl; rewrite IH; reflexivity.
Qed.

Lemma entry_cursors_none (p : event -> bool) (t : list event) :
  (forall e, p e = true -> is_invoke e = false) ->
  Forall (fun e => p e = true) t -> entry_cursors t = [].
Proof.
  intros Hp Hall. induction Hall as [|e t He _ IH]; simpl; [reflexivity|].
  specialize (Hp e He). destruct e; simpl in *; try exact IH; discriminate.
Qed.

Lemma entry_cursors_outputs (out : list string) :
  entry_cursors (map EvCmdOutput out) = [].
Proof. induction out; simpl; auto. Qed.

(** ** Text *)

Lemma prefix_app (p s : string) : prefix p (p ++ s) = true.
Proof.
  induction p as [|a p IH]; simpl.
  - destruct s; reflexivity.
  - destruct (ascii_dec a a) as [_|Hne]; [exact IH | contradiction].
Qed.

Lemma contains_prefix (p s : string) :
  prefix p s = true -> contains p s = true.
Proof. intros H. destruct s; cbn [contains]; rewrite H; reflexivity. Qed.

Lemma contains_here (p s : string) : contains p (p ++ s) = true.
Proof. apply contains_prefix, prefix_app. Qed.

Lemma contains_after (p a s : string) :
  contains p s = true -> contains p (a ++ s) = true.
Proof.
  intros H. induction a as [|c a IH]; simpl; [exact H|].
  rewrite IH. apply orb_true_r.
Qed.

Lemma contains_inside (p a b : string) : contains p (a ++ p ++ b) = true.
Proof. apply contains_after, contains_here. Qed.

Lemma replace_from_absent (find repl s : string) :
  contains find s = false -> WString.replace_from find repl 0 s = s.
Proof.
  induction s as [|c s IH]; intros H; [reflexivity|].
  cbn [contains] in H. apply orb_false_iff in H. destruct H as [Hp Hs].
  cbn [WString.replace_from]. rewrite Hp, (IH Hs). reflexivity.
Qed.

Lemma replace_absent (find repl s : string) :
  contains find s = false -> WString.replace find repl s = s.
Proof.
  intros H. unfold WString.replace.
  destruct s; [reflexivity|]. destruct find; [reflexivity|].
  apply replace_from_absent. exact H.
Qed.

(** ** The dispatcher *)

Lemma find_command_absent (name : string) (reg : list Command) :
  ~ In name (map cmd_name reg) -> find_command_by_name name reg = None.
Proof.
  unfold find_command_by_name.
  induction reg as [|cmd reg IH]; simpl; intros Hnot; [reflexivity|].
  destruct (String.eqb_spec (cmd_name cmd) name) as [Heq|Hne].
  - exfalso. apply Hnot. left. exact Heq.
  - apply IH. intros Hin. apply Hnot. right. exact Hin.
Qed.

Lemma find_command_name (name : string) (reg : list Command) (cmd : Command) :
  find_command_by_name name reg = Some cmd ->
  In cmd reg /\ cmd_name cmd = name.
Proof.
  unfold find_command_by_name. intros H.
  apply find_some in H. destruct H as [Hin Heq].
  split; [exact Hin | apply String.eqb_eq; exact Heq].
Qed.

Section DispatcherFacts.

Context {P : Platform}.

Lemma split_blank (s : string) :
  blank s = true -> esp_console_split_argv s = [].
Proof.
  unfold esp_console_split_argv.
  induction s as [|c s IH]; simpl; intros Hb; [reflexivity|].
  apply andb_true_iff in Hb. destruct Hb as [Hc Hs].
  rewrite Hc. apply IH. exact Hs.
Qed.

Lemma run_too_long (l : string) (w : World) :
  max_cmdline_length (console_config w) < Z.of_nat (String.length l) ->
  esp_console_run l w = (ESP_FAIL, 0, emit [EvConsoleRun l] w).
Proof.
  intros Hlen. unfold esp_console_run.
  destruct (Z.ltb_spec (max_cmdline_length (console_config w))
              (Z.of_nat (String.length l))); [reflexivity | lia].
Qed.

Lemma run_empty (l : string) (w : World) :
  Z.of_nat (String.length l) <= max_cmdline_length (console_config w) ->
  esp_console_split_argv l = [] ->
  esp_console_run l w = (ESP_ERR_INVALID_ARG, 0, emit [EvConsoleRun l] w).
Proof.
  intros Hlen Hsplit. unfold esp_console_run.
  destruct (Z.ltb_spec (max_cmdline_length (console_config w))
              (Z.of_nat (String.length l))); [lia|].
  rewrite Hsplit. reflexivity.
Qed.

Lemma run_not_found (l : string) (w : World) (name : string) (args : list string) :
  Z.of_nat (String.length l) <= max_cmdline_length (console_config w) ->
  esp_console_split_argv l = name :: args ->
  find_command_by_name name (registry w) = None ->
  esp_console_run l w = (ESP_ERR_NOT_FOUND, 0, emit [EvConsoleRun l] w).
Proof.
  intros Hlen Hsplit Hfind. unfold esp_console_run.
  destruct (Z.ltb_spec (max_cmdline_length (console_config w))
              (Z.of_nat (String.length l))); [lia|].
  rewrite Hsplit, Hfind. reflexivity.
Qed.

Lemma run_executed (l : string) (w : World) (name : string) (args : list string)
      (cmd : Command) :
  Z.of_nat (String.length l) <= max_cmdline_length (console_config w) ->
  esp_console_split_argv l = name :: args ->
  find_command_by_name name (registry w) = Some cmd ->
  Z.of_nat (List.length (name :: args)) <= max_cmdline_args (console_config w) ->
  let r := cmd_func cmd (name :: args) (optind w) (pwd w) in
  esp_console_run l w =
    (ESP_OK, cr_status r,
     apply_result r
       (emit [EvInvoke name (name :: args) (optind w)] (emit [EvConsoleRun l] w))).
Proof.
  intros Hlen Hsplit Hfind Hargs r. unfold esp_console_run.
  destruct (Z.ltb_spec (max_cmdline_length (console_config w))
              (Z.of_nat (String.length l))); [lia|].
  rewrite Hsplit, Hfind.
  destruct (Z.ltb_spec (max_cmdline_args (console_config w))
              (Z.of_nat (List.length (name :: args)))); [lia|].
  reflexivity.
Qed.

(** Whatever the line, the dispatcher records its own call, then only
    what the callback does, and enters a callback with the cursor it was
    given; it reads no line. *)
Lemma run_shape (l : string) (w : World) :
  exists d,
    trace (snd (esp_console_run l w)) = (trace w ++ EvConsoleRun l :: d)%list /\
    Forall (fun e => is_command_activity e = true) d /\
    (count is_invoke d <= 1)%nat /\
    Forall (fun z => z = optind w) (entry_cursors d) /\
    keyboard (snd (esp_console_run l w)) = keyboard w /\
    reads (snd (esp_console_run l w)) = reads w.
Proof.
  unfold esp_console_run.
  destruct (_ <? _).
  { exists []. world. repeat split; repeat constructor. }
  destruct (esp_console_split_argv l) as [|name args].
  { exists []. world. repeat split; repeat constructor. }
  destruct (find_command_by_name name (registry w)) as [cmd|].
  2:{ exists []. world. repeat split; repeat constructor. }
  destruct (_ <? _).
  { exists []. world. repeat split; repeat constructor. }
  exists (EvInvoke name (name :: args) (optind w)
            :: map EvCmdOutput
                 (cr_output (cmd_func cmd (name :: args) (optind w) (pwd w)))).
  world. repeat split.
  - rewrite <- !app_assoc. reflexivity.
  - constructor; [reflexivity | apply outputs_are_activity].
  - rewrite count_cons, count_invoke_outputs. cbn. lia.
  - cbn [entry_cursors]. rewrite entry_cursors_outputs. repeat constructor.
Qed.

End DispatcherFacts.

(** ** The loop *)

Section LoopFacts.

Context {P : Platform}.

Lemma at_dispatch_trace (c : Console) (l : string) (w : World) :
  trace (at_dispatch c l w) = (trace w ++ intake (render_prompt c w) c l)%list.
Proof.
  unfold at_dispatch, with_history_path, intake, history_calls.
  destruct (history_save_path_ c); world; rewrite <- !app_assoc; reflexivity.
Qed.

Lemma at_dispatch_state (c : Console) (l : string) (w : World) :
  optind (at_dispatch c l w) = optind w /\
  registry (at_dispatch c l w) = registry w /\
  console_config (at_dispatch c l w) = console_config w /\
  pwd (at_dispatch c l w) = pwd w /\
  keyboard (at_dispatch c l w) = keyboard w /\
  reads (at_dispatch c l w) = S (reads w).
Proof.
  unfold at_dispatch, with_history_path.
  destruct (history_save_path_ c); world; repeat split; reflexivity.
Qed.

Lemma repl_iteration_line (c : Console) (w : World) (l : string) :
  keyboard w (reads w) = Some l ->
  repl_iteration c w =
    let '(err, ret, w5) := esp_console_run l (at_dispatch c l w) in
    linenoiseFree l (report err ret (resetAfterCommands w5)).
Proof.
  intros Hk. unfold repl_iteration, at_dispatch, linenoise.
  rewrite Hk. reflexivity.
Qed.

Lemma repl_iteration_null (c : Console) (w : World) :
  keyboard w (reads w) = None ->
  repl_iteration c w =
    log_d "empty line" (snd (linenoise (render_prompt c w) w)).
Proof.
  intros Hk. unfold repl_iteration, linenoise. rewrite Hk. reflexivity.
Qed.

(** [report] prints at most one message and touches nothing else. *)
Lemma report_shape (err : esp_err_t) (ret : Z) :
  exists msgs,
    (List.length msgs <= 1)%nat /\
    forall w,
      trace (report err ret w) = (trace w ++ map EvPrintf msgs)%list /\
      optind (report err ret w) = optind w /\
      keyboard (report err ret w) = keyboard w /\
      reads (report err ret w) = reads w.
Proof.
  unfold report.
  destruct (err =? ESP_ERR_NOT_FOUND).
  { exists [msg_unrecognized]. split; [simpl; lia|]. intros w. world. auto. }
  destruct (err =? ESP_ERR_INVALID_ARG).
  { exists []. split; [simpl; lia|]. intros w. rewrite app_nil_r. auto. }
  destruct ((err =? ESP_OK) && negb (ret =? ESP_OK)).
  { exists [msg_nonzero ret]. split; [simpl; lia|]. intros w. world. auto. }
  destruct (negb (err =? ESP_OK)).
  { exists [msg_internal err]. split; [simpl; lia|]. intros w. world. auto. }
  exists []. split; [simpl; lia|]. intros w. rewrite app_nil_r. auto.
Qed.

(** What a pass that read a line does, whatever the line. *)
Lemma iteration_shape (c : Console) (w : World) (l : string) :
  keyboard w (reads w) = Some l ->
  exists d msgs,
    trace (repl_iteration c w) =
      (trace w ++ intake (render_prompt c w) c l
         ++ EvConsoleRun l :: d
         ++ EvResetAfterCommands :: map EvPrintf msgs
         ++ [EvLinenoiseFree l])%list /\
    Forall (fun e => is_command_activity e = true) d /\
    (count is_invoke d <= 1)%nat /\
    Forall (fun z => z = optind w) (entry_cursors d) /\
    (List.length msgs <= 1)%nat /\
    optind (repl_iteration c w) = 0 /\
    keyboard (repl_iteration c w) = keyboard w /\
    reads (repl_iteration c w) = S (reads w).
Proof.
  intros Hk. rewrite (repl_iteration_line c w l Hk).
  destruct (run_shape l (at_dispatch c l w)) as (d & Ht & Hact & Hone & Hcur & Hkb & Hrd).
  destruct (at_dispatch_state c l w) as (Ho & _ & _ & _ & Hk' & Hr').
  destruct (esp_console_run l (at_dispatch c l w)) as [[err ret] w5].
  cbn [snd] in *.
  destruct (report_shape err ret) as (msgs & Hlen & Hrep).
  destruct (Hrep (resetAfterCommands w5)) as (Hrt & Hro & Hrk & Hrr).
  exists d, msgs. unfold resetAfterCommands in *. world.
  rewrite Hrt, Hro, Hrk, Hrr. world.
  rewrite Ht, at_dispatch_trace, Hkb, Hrd, Hk', Hr'.
  rewrite Ho in Hcur.
  repeat split; try assumption.
  repeat (rewrite <- app_assoc; cbn [app]). reflexivity.
Qed.

Lemma iteration_null_shape (c : Console) (w : World) :
  keyboard w (reads w) = None ->
  trace (repl_iteration c w) =
    (trace w ++ [EvLinenoise (render_prompt c w);
                 EvLog LogDebug "empty line"])%list /\
  optind (repl_iteration c w) = optind w /\
  keyboard (repl_iteration c w) = keyboard w /\
  reads (repl_iteration c w) = S (reads w).
Proof.
  intros Hk. rewrite (repl_iteration_null c w Hk). world.
  rewrite <- app_assoc. auto.
Qed.

(** Every pass starts by showing the prompt and reading a line. *)
Lemma iteration_reads_first (c : Console) (w : World) :
  exists rest,
    trace (repl_iteration c w) =
      (trace w ++ EvLinenoise (render_prompt c w) :: rest)%list.
Proof.
  destruct (keyboard w (reads w)) as [l|] eqn:Hk.
  - destruct (iteration_shape c w l Hk) as (d & msgs & Ht & _).
    rewrite Ht. unfold intake. cbn [app]. eexists. reflexivity.
  - destruct (iteration_null_shape c w Hk) as (Ht & _).
    rewrite Ht. eexists. reflexivity.
Qed.

Lemma loop_extends (c : Console) (n : nat) (w : World) :
  exists d, trace (repl_loop c n w) = (trace w ++ d)%list.
Proof.
  revert w. induction n as [|n IH]; intros w; cbn [repl_loop].
  - exists []. rewrite app_nil_r. reflexivity.
  - destruct (iteration_reads_first c w) as (r & Hr).
    destruct (IH (repl_iteration c w)) as (d & Hd).
    rewrite Hd, Hr, <- app_assoc. eexists. reflexivity.
Qed.

(** The calls of [S n] passes are those of the first pass followed by
    those of the [n] others. *)
Lemma emitted_loop_step (c : Console) (n : nat) (w : World) :
  emitted w (repl_loop c (S n) w) =
    (emitted w (repl_iteration c w)
       ++ emitted (repl_iteration c w) (repl_loop c n (repl_iteration c w)))%list.
Proof.
  cbn [repl_loop].
  destruct (iteration_reads_first c w) as (r & Hr).
  destruct (loop_extends c n (repl_iteration c w)) as (d & Hd).
  rewrite (emitted_app _ _ _ Hr), (emitted_app _ _ _ Hd).
  apply emitted_app. rewrite Hd, Hr, <- app_assoc. reflexivity.
Qed.

(** A pass enters callbacks only with the cursor it started with, and
    leaves the cursor at 0 or as it found it. *)
Lemma iteration_cursor (c : Console) (w : World) :
  Forall (fun z => z = optind w) (entry_cursors (emitted w (repl_iteration c w))) /\
  (optind (repl_iteration c w) = 0 \/ optind (repl_iteration c w) = optind w).
Proof.
  destruct (keyboard w (reads w)) as [l|] eqn:Hk.
  - destruct (iteration_shape c w l Hk) as (d & msgs & Ht & Hact & _ & Hcur & _ & Ho & _).
    rewrite (emitted_app _ _ _ Ht). split; [|left; exact Ho].
    unfold intake, history_calls.
    rewrite !entry_cursors_app. cbn [entry_cursors app].
    rewrite entry_cursors_app. cbn [entry_cursors].
    rewrite entry_cursors_app.
    rewrite (entry_cursors_none is_printf (map EvPrintf msgs));
      [| intros [] He; (reflexivity || discriminate) | apply printfs_are_printf].
    cbn [entry_cursors app]. rewrite app_nil_r.
    destruct (history_save_path_ c); exact Hcur.
  - destruct (iteration_null_shape c w Hk) as (Ht & Ho & _).
    rewrite (emitted_app _ _ _ Ht). split; [constructor | right; exact Ho].
Qed.

(** Once the cursor is 0 at the top of the loop, every callback of every
    later pass is entered with the cursor at 0. *)
Lemma loop_cursor (c : Console) (n : nat) (w : World) :
  optind w = 0 ->
  Forall (fun z => z = 0) (entry_cursors (emitted w (repl_loop c n w))) /\
  optind (repl_loop c n w) = 0.
Proof.
  revert w. induction n as [|n IH]; intros w Hw.
  - cbn [repl_loop]. rewrite emitted_same. split; [constructor | exact Hw].
  - rewrite emitted_loop_step. cbn [repl_loop].
    destruct (iteration_cursor c w) as (Hc & Ho).
    assert (Hw' : optind (repl_iteration c w) = 0) by (destruct Ho; congruence).
    destruct (IH _ Hw') as (IH1 & IH2).
    split; [|exact IH2].
    rewrite entry_cursors_app. apply Forall_app. split; [|exact IH1].
    rewrite Hw in Hc. exact Hc.
Qed.

End LoopFacts.

(** ** Startup *)

Section StartupFacts.

Context {P : Platform}.

Lemma beginCommon_shape (c : Console) (w : World) :
  trace (beginCommon c w) =
    (trace w
       ++ [EvSetCompletionCallback; EvSetHintsCallback;
           EvHistorySetMaxLen (max_history_len_ c);
           EvSetMaxLineLen (max_cmdline_len_ c)]
       ++ history_load_calls c
       ++ map (fun cmd => EvRegister (cmd_name cmd)) common_commands)%list /\
  stdin (beginCommon c w) = stdin w /\
  stdout (beginCommon c w) = stdout w /\
  stderr (beginCommon c w) = stderr w /\
  tasks (beginCommon c w) = tasks w /\
  console_config (beginCommon c w) = console_config w /\
  registry (beginCommon c w) = (registry w ++ common_commands)%list.
Proof.
  unfold beginCommon, registerCoreCommands, seq, with_history_path,
    history_load_calls, common_commands,
    esp_console_register_help_command, registerCommand,
    esp_console_cmd_register.
  destruct (history_save_path_ c); cbn [fold_left map]; world;
    repeat (rewrite <- app_assoc; cbn [app]); repeat split; reflexivity.
Qed.

(** The ways [begin] can end. *)
Lemma begin_cases (c : Console) (baud rxPin txPin channel : Z) (w : World) :
  let r := begin c baud rxPin txPin channel w in
  (SOC_UART_NUM <= channel /\
   r = Done tt
         (log_e ("Serial number is invalid, please use numers from 0 to "
                 ++ fmt_d (SOC_UART_NUM - 1))
            (log_d "Initialize console" w)))
  \/
  (channel < SOC_UART_NUM /\
   exists err w', r = Abort err w' /\
     stdin w' = stdin w /\ stdout w' = stdout w /\ stderr w' = stderr w /\
     tasks w' = tasks w /\
     (exists es, trace w' = (trace w ++ es)%list /\
                 count is_fopen es = 0%nat /\
                 count is_task_create es = 0%nat /\
                 count is_history_file es = 0%nat /\
                 exists rest,
                   es = ([EvLog LogDebug "Initialize console"; EvFflush;
                          EvFsync; EvSetvbuf; EvRxLineEndings channel;
                          EvTxLineEndings channel;
                          EvUartDriverInstall channel] ++ rest)%list) /\
     (uart_driver_install channel <> ESP_OK \/
      uart_param_config channel baud <> ESP_OK \/
      esp_console_init (config_of c) <> ESP_OK))
  \/
  (channel < SOC_UART_NUM /\
   uart_driver_install channel = ESP_OK /\
   uart_param_config channel baud = ESP_OK /\
   esp_console_init (config_of c) = ESP_OK /\
   r = Done tt (begin_completed c baud channel w)).
Proof.
  intros r. subst r. unfold begin, bind, lift.
  destruct (Z.geb_spec channel SOC_UART_NUM) as [Hge|Hlt].
  { left. split; [lia | reflexivity]. }
  right.
  unfold ESP_ERROR_CHECK, bind, call_uart_driver_install,
    call_uart_param_config, call_esp_console_init, call_xTaskCreate, ret.
  fold (config_of c).
  destruct (Z.eqb_spec (uart_driver_install channel) ESP_OK) as [E1|E1].
  2:{ left. split; [exact Hlt|]. do 2 eexists. split; [reflexivity|].
      world. repeat split; auto.
      eexists. split; [repeat (rewrite <- app_assoc; cbn [app]); reflexivity|].
      repeat split; try reflexivity. eexists. cbn [app]. reflexivity. }
  destruct (Z.eqb_spec (uart_param_config channel baud) ESP_OK) as [E2|E2].
  2:{ left. split; [exact Hlt|]. do 2 eexists. split; [reflexivity|].
      world. repeat split; auto.
      eexists. split; [repeat (rewrite <- app_assoc; cbn [app]); reflexivity|].
      repeat split; try reflexivity. eexists. cbn [app]. reflexivity. }
  destruct (Z.eqb_spec (esp_console_init (config_of c)) ESP_OK) as [E3|E3].
  2:{ left. split; [exact Hlt|]. do 2 eexists. split; [reflexivity|].
      world. repeat split; auto.
      eexists. split; [repeat (rewrite <- app_assoc; cbn [app]); reflexivity|].
      repeat split; try reflexivity. eexists. cbn [app]. reflexivity. }
  right. repeat (split; [assumption|]).
  unfold begin_completed.
  destruct (negb (channel =? CONFIG_ESP_CONSOLE_UART_NUM));
    destruct (xTaskCreate "console_repl"); reflexivity.
Qed.


(** What [begin] has called and changed when it runs to its end. *)
Lemma begin_completed_shape (c : Console) (baud channel : Z) (w : World) :
  let w' := begin_completed c baud channel w in
  trace w' =
    (trace w
       ++ [EvLog LogDebug "Initialize console"; EvFflush; EvFsync; EvSetvbuf;
           EvRxLineEndings channel; EvTxLineEndings channel;
           EvUartDriverInstall channel; EvUartParamConfig channel baud;
           EvUartUseDriver channel; EvConsoleInit (config_of c)]
       ++ reopen_calls channel
       ++ [EvSetCompletionCallback; EvSetHintsCallback;
           EvHistorySetMaxLen (max_history_len_ c);
           EvSetMaxLineLen (max_cmdline_len_ c)]
       ++ history_load_calls c
       ++ map (fun cmd => EvRegister (cmd_name cmd)) common_commands
       ++ EvTaskCreate "console_repl"
       :: (if xTaskCreate "console_repl" then []
           else [EvLog LogError "Could not start REPL task!"]))%list /\
  (if negb (channel =? CONFIG_ESP_CONSOLE_UART_NUM)
   then stdin w' = Opened (uart_path channel) "r" /\
        stdout w' = Opened (uart_path channel) "w" /\
        stderr w' = Opened (uart_path channel) "w"
   else stdin w' = stdin w /\ stdout w' = stdout w /\ stderr w' = stderr w) /\
  tasks w' = (if xTaskCreate "console_repl"
              then tasks w ++ ["console_repl"] else tasks w)%list.
Proof.
  intros w'. subst w'.
  unfold begin_completed, reopen_calls, history_load_calls, common_commands,
    beginCommon, registerCoreCommands, seq, with_history_path,
    esp_console_register_help_command, registerCommand,
    esp_console_cmd_register, reopen_streams.
  destruct (negb (channel =? CONFIG_ESP_CONSOLE_UART_NUM));
    destruct (xTaskCreate "console_repl");
    destruct (history_save_path_ c);
    cbn [fold_left map]; world;
    repeat (rewrite <- app_assoc; cbn [app]); repeat split; reflexivity.
Qed.

Lemma setup_shape (c : Console) (w : World) :
  trace (repl_setup c w) = (trace w ++ setup_calls c w)%list /\
  optind (repl_setup c w) = optind w.
Proof.
  unfold repl_setup, setup_calls.
  destruct (negb (linenoiseProbe =? 0)); world;
    [| destruct (dumb_mode w)]; world;
    repeat (rewrite <- app_assoc; cbn [app]); split; reflexivity.
Qed.

End StartupFacts.

(** ** Counting calls *)

Section Counting.

Context {P : Platform}.

(** The calls of a pass after the reset: at most one message, then the
    release of the line. *)
Lemma tail_counts (p : event -> bool) (msgs : list string) (l : string) :
  (forall e, is_printf e = true -> p e = false) ->
  p (EvLinenoiseFree l) = false ->
  count p (map EvPrintf msgs ++ [EvLinenoiseFree l]) = 0%nat.
Proof.
  intros Hp Hf. rewrite count_app, count_cons, Hf.
  rewrite (count_disjoint p is_printf _ Hp (printfs_are_printf msgs)).
  reflexivity.
Qed.

(** [resetAfterCommands] runs once from the dispatcher on. *)
Lemma dispatch_counts_reset (l : string) (d : list event) (msgs : list string) :
  Forall (fun e => is_command_activity e = true) d ->
  count is_reset (EvConsoleRun l :: d
                    ++ EvResetAfterCommands :: map EvPrintf msgs
                    ++ [EvLinenoiseFree l]) = 1%nat.
Proof.
  intros Hd. rewrite count_cons, count_app, count_cons.
  rewrite (count_disjoint is_reset is_command_activity d);
    [| intros [] Hq; (reflexivity || discriminate) | exact Hd].
  rewrite tail_counts;
    [reflexivity | intros [] Hq; (reflexivity || discriminate) | reflexivity].
Qed.

Lemma next_pass_reads (c : Console) (w : World) :
  exists rest,
    emitted w (repl_iteration c w) = EvLinenoise (render_prompt c w) :: rest.
Proof.
  destruct (iteration_reads_first c w) as (rest & Hr).
  exists rest. apply emitted_app. exact Hr.
Qed.

(** The calls before the loop enter no callback. *)
Lemma setup_enters_nothing (c : Console) (w : World) :
  entry_cursors (setup_calls c w) = [].
Proof.
  unfold setup_calls.
  destruct (negb (linenoiseProbe =? 0)); destruct (dumb_mode w); reflexivity.
Qed.

(** [p] holds of none of the calls a pass makes from the dispatcher on. *)
Lemma dispatch_counts (p : event -> bool) (l : string) (d : list event)
      (msgs : list string) :
  (forall e, is_command_activity e = true -> p e = false) ->
  (forall e, is_printf e = true -> p e = false) ->
  p (EvConsoleRun l) = false ->
  p EvResetAfterCommands = false ->
  p (EvLinenoiseFree l) = false ->
  Forall (fun e => is_command_activity e = true) d ->
  count p (EvConsoleRun l :: d
             ++ EvResetAfterCommands :: map EvPrintf msgs
             ++ [EvLinenoiseFree l]) = 0%nat.
Proof.
  intros Hact Hpr Hrun Hreset Hfree Hd.
  rewrite count_cons, count_app, count_cons, Hrun, Hreset.
  rewrite (count_disjoint p is_command_activity d Hact Hd).
  rewrite (tail_counts p msgs l Hpr Hfree). reflexivity.
Qed.

(** No pass of the loop reads the history file. *)
Lemma pass_never_loads (c : Console) (w : World) :
  count is_history_load (emitted w (repl_iteration c w)) = 0%nat.
Proof.
  destruct (keyboard w (reads w)) as [l|] eqn:Hk.
  - destruct (iteration_shape c w l Hk) as (d & msgs & Ht & Hact & _).
    rewrite (emitted_app _ _ _ Ht), count_app, dispatch_counts;
      try solve [ intros [] Hq; (reflexivity || discriminate)
                | reflexivity | exact Hact ].
    unfold intake, history_calls. destruct (history_save_path_ c); reflexivity.
  - destruct (iteration_null_shape c w Hk) as (Ht & _).
    rewrite (emitted_app _ _ _ Ht). reflexivity.
Qed.

(** Without a history path no pass of the loop touches a history file. *)
Lemma pass_without_path (c : Console) (w : World) :
  history_save_path_ c = None ->
  count is_history_file (emitted w (repl_iteration c w)) = 0%nat.
Proof.
  intros Hnone. destruct (keyboard w (reads w)) as [l|] eqn:Hk.
  - destruct (iteration_shape c w l Hk) as (d & msgs & Ht & Hact & _).
    rewrite (emitted_app _ _ _ Ht), count_app, dispatch_counts;
      try solve [ intros [] Hq; (reflexivity || discriminate)
                | reflexivity | exact Hact ].
    unfold intake, history_calls. rewrite Hnone. reflexivity.
  - destruct (iteration_null_shape c w Hk) as (Ht & _).
    rewrite (emitted_app _ _ _ Ht). reflexivity.
Qed.

(** What no pass does, no number of passes does. *)
Lemma loop_counts (p : event -> bool) (c : Console) :
  (forall w, count p (emitted w (repl_iteration c w)) = 0%nat) ->
  forall n w, count p (emitted w (repl_loop c n w)) = 0%nat.
Proof.
  intros Hpass n. induction n as [|n IH]; intros w.
  - cbn [repl_loop]. rewrite emitted_same. reflexivity.
  - rewrite emitted_loop_step, count_app, Hpass, IH. reflexivity.
Qed.

(** The calls of [repl_task]: those before the loop, then the loop's. *)
Lemma emitted_task (c : Console) (n : nat) (w : World) :
  emitted w (repl_task c n w) =
    (setup_calls c w
       ++ emitted (repl_setup c w) (repl_loop c n (repl_setup c w)))%list.
Proof.
  unfold repl_task.
  destruct (setup_shape c w) as (Hs & _).
  destruct (loop_extends c n (repl_setup c w)) as (d & Hd).
  rewrite (emitted_app _ _ _ Hd).
  apply emitted_app. rewrite Hd, Hs, <- app_assoc. reflexivity.
Qed.

Lemma setup_no_history_file (c : Console) (w : World) :
  count is_history_file (setup_calls c w) = 0%nat /\
  count is_history_load (setup_calls c w) = 0%nat.
Proof.
  unfold setup_calls.
  destruct (negb (linenoiseProbe =? 0)); destruct (dumb_mode w);
    split; reflexivity.
Qed.

(** [begin] reads the history file at most once, and only at the path
    of the console. *)
Lemma begin_history_file (c : Console) (baud rxPin txPin channel : Z)
      (w : World) :
  let t := emitted w (final (begin c baud rxPin txPin channel w)) in
  filter is_history_file t = [] \/
  filter is_history_file t = history_load_calls c.
Proof.
  intros t. subst t.
  destruct (begin_cases c baud rxPin txPin channel w)
    as [(_ & Hr) | [(_ & err & w' & Hr & _ & _ & _ & _ & (es & Ht & _ & _ & Hes & _) & _)
                   | (_ & _ & _ & _ & Hr)]];
    rewrite Hr; cbn [final].
  - left.
    erewrite emitted_app by (world; rewrite <- app_assoc; reflexivity).
    reflexivity.
  - left. rewrite (emitted_app _ _ _ Ht).
    unfold count in Hes. apply length_zero_iff_nil. exact Hes.
  - right. destruct (begin_completed_shape c baud channel w) as (Ht & _).
    rewrite (emitted_app _ _ _ Ht).
    unfold reopen_calls, history_load_calls, common_commands.
    destruct (negb (channel =? CONFIG_ESP_CONSOLE_UART_NUM));
      destruct (xTaskCreate "console_repl");
      destruct (history_save_path_ c); reflexivity.
Qed.


(** Past the check of the channel, [begin] goes on to set up the UART. *)
Lemma begin_in_range_starts (c : Console) (baud rxPin txPin channel : Z)
      (w : World) :
  channel < SOC_UART_NUM ->
  exists rest,
    emitted w (final (begin c baud rxPin txPin channel w)) =
      ([EvLog LogDebug "Initialize console"; EvFflush; EvFsync; EvSetvbuf;
        EvRxLineEndings channel; EvTxLineEndings channel;
        EvUartDriverInstall channel] ++ rest)%list.
Proof.
  intros Hlt.
  destruct (begin_cases c baud rxPin txPin channel w)
    as [(Hge & _) | [(_ & err & w' & Hr & _ & _ & _ & _ & (es & Ht & _ & _ & _ & rest & Hes) & _)
                    | (_ & _ & _ & _ & Hr)]];
    [lia | |]; rewrite Hr; cbn [final].
  - exists rest. rewrite (emitted_app _ _ _ Ht). exact Hes.
  - destruct (begin_completed_shape c baud channel w) as (Ht & _).
    rewrite (emitted_app _ _ _ Ht). cbn [app]. eexists. reflexivity.
Qed.

End Counting.

(** ** The standard streams in the worker *)



Section StreamFacts.

Context {P : Platform}.









End StreamFacts.

(** * The claims *)

Section Claims.

Context {P : Platform}.

(** C1.  A pass of the loop that dispatches a line ends with the cursor
    at its initial value, whatever the cursor was and whatever the
    outcome of the dispatch; [resetAfterCommands] runs once in that pass,
    after the dispatcher and the callback it ran, and nothing that
    follows it in the pass reads a line or enters a callback.  A pass
    whose read returns NULL dispatches nothing and leaves the cursor
    alone.  Hence, in a worker that starts with the cursor at its initial
    value, every callback is entered with the cursor at its initial
    value, however many passes the loop makes. *)
Theorem cursor_reset_each_dispatch (c : Console) :
  (forall w l,
     keyboard w (reads w) = Some l ->
     let w' := repl_iteration c w in
     optind w' = optind_initial /\
     count is_reset (emitted w w') = 1%nat /\
     exists d rest,
       emitted w w' =
         (intake (render_prompt c w) c l
            ++ EvConsoleRun l :: d ++ EvResetAfterCommands :: rest)%list /\
       Forall (fun e => is_command_activity e = true) d /\
       count is_linenoise rest = 0%nat /\
       count is_invoke rest = 0%nat) /\
  (forall w,
     keyboard w (reads w) = None ->
     let w' := repl_iteration c w in
     optind w' = optind w /\
     emitted w w' = [EvLinenoise (render_prompt c w);
                     EvLog LogDebug "empty line"]) /\
  (forall w0 n,
     optind w0 = optind_initial ->
     optind (repl_task c n w0) = optind_initial /\
     Forall (fun z => z = optind_initial)
       (entry_cursors (emitted w0 (repl_task c n w0)))).
Proof.
  split; [|split].
  - intros w l Hk w'. subst w'.
    destruct (iteration_shape c w l Hk)
      as (d & msgs & Ht & Hact & _ & _ & _ & Ho & _).
    pose proof (emitted_app _ _ _ Ht) as He.
    split; [exact Ho|]. split.
    + rewrite He, count_app, dispatch_counts_reset by exact Hact.
      unfold intake, history_calls.
      destruct (history_save_path_ c); reflexivity.
    + exists d, (map EvPrintf msgs ++ [EvLinenoiseFree l])%list.
      split; [exact He|]. split; [exact Hact|].
      split; apply tail_counts;
        solve [ intros [] Hq; (reflexivity || discriminate) | reflexivity ].
  - intros w Hk w'. subst w'.
    destruct (iteration_null_shape c w Hk) as (Ht & Ho & _).
    split; [exact Ho | apply emitted_app; exact Ht].
  - intros w0 n Hw0.
    destruct (setup_shape c w0) as (_ & Hs).
    assert (Hstart : optind (repl_setup c w0) = 0) by (rewrite Hs; exact Hw0).
    destruct (loop_cursor c n (repl_setup c w0) Hstart) as (Hall & Hend).
    split; [exact Hend|].
    rewrite emitted_task, entry_cursors_app, setup_enters_nothing.
    exact Hall.
Qed.

(** C2.  A pass of the loop reads a line whose leading token names no
    registered command (a line longer than the configured maximum is
    rejected before it is split, and is not meant here): the dispatcher
    answers "not found"; the pass prints "Unrecognized command" and
    nothing else; no callback is entered.  By [find_command_absent] the
    lookup fails whenever no registered command bears the name. *)
Theorem unrecognized_command_reported
    (c : Console) (w : World) (l name : string) (args : list string) :
  keyboard w (reads w) = Some l ->
  Z.of_nat (String.length l) <= max_cmdline_length (console_config w) ->
  esp_console_split_argv l = name :: args ->
  find_command_by_name name (registry w) = None ->
  let w' := repl_iteration c w in
  fst (fst (esp_console_run l (at_dispatch c l w))) = ESP_ERR_NOT_FOUND /\
  emitted w w' =
    (intake (render_prompt c w) c l
       ++ [EvConsoleRun l; EvResetAfterCommands;
           EvPrintf msg_unrecognized; EvLinenoiseFree l])%list /\
  filter is_printf (emitted w w') = [EvPrintf msg_unrecognized] /\
  count is_invoke (emitted w w') = 0%nat.
Proof.
  intros Hk Hlen Hsplit Hfind w'. subst w'.
  destruct (at_dispatch_state c l w) as (_ & Hr & Hc & _).
  assert (Hrun : esp_console_run l (at_dispatch c l w) =
                 (ESP_ERR_NOT_FOUND, 0, emit [EvConsoleRun l] (at_dispatch c l w))).
  { apply (run_not_found l _ name args); rewrite ?Hc, ?Hr; assumption. }
  assert (He : emitted w (repl_iteration c w) =
               (intake (render_prompt c w) c l
                  ++ [EvConsoleRun l; EvResetAfterCommands;
                      EvPrintf msg_unrecognized; EvLinenoiseFree l])%list).
  { apply emitted_app. rewrite (repl_iteration_line c w l Hk), Hrun.
    unfold resetAfterCommands, report. cbn [ESP_ERR_NOT_FOUND Z.eqb Pos.eqb].
    world. rewrite at_dispatch_trace, <- !app_assoc. reflexivity. }
  rewrite Hrun, He. split; [reflexivity|]. split; [reflexivity|].
  unfold intake, history_calls, count.
  destruct (history_save_path_ c); split; reflexivity.
Qed.

(** C3.  A pass of the loop dispatches a line to a registered command
    whose callback returns a status other than 0: the pass prints one
    message and no other; the message holds the status in hexadecimal
    and the name [esp_err_to_name] gives it; and the next pass starts by
    reading a line. *)
Theorem nonzero_status_reported
    (c : Console) (w : World) (l name : string) (args : list string)
    (cmd : Command) :
  keyboard w (reads w) = Some l ->
  Z.of_nat (String.length l) <= max_cmdline_length (console_config w) ->
  esp_console_split_argv l = name :: args ->
  find_command_by_name name (registry w) = Some cmd ->
  Z.of_nat (List.length (name :: args)) <= max_cmdline_args (console_config w) ->
  let status := cr_status (cmd_func cmd (name :: args) (optind w) (pwd w)) in
  let w' := repl_iteration c w in
  status <> 0 ->
  filter is_printf (emitted w w') = [EvPrintf (msg_nonzero status)] /\
  contains (fmt_0x_x status) (msg_nonzero status) = true /\
  contains (esp_err_to_name status) (msg_nonzero status) = true /\
  exists rest,
    emitted w' (repl_iteration c w') = EvLinenoise (render_prompt c w') :: rest.
Proof.
  intros Hk Hlen Hsplit Hfind Hargs status w' Hne.
  destruct (at_dispatch_state c l w) as (Ho & Hr & Hc & Hp & _).
  pose proof (run_executed l (at_dispatch c l w) name args cmd) as Hrun.
  rewrite Hc, Hr, Ho, Hp in Hrun.
  specialize (Hrun Hlen Hsplit Hfind Hargs). cbn zeta in Hrun. fold status in Hrun.
  split; [|split; [|split]].
  - subst w'.
    assert (He : emitted w (repl_iteration c w) =
              (intake (render_prompt c w) c l
                 ++ EvConsoleRun l :: EvInvoke name (name :: args) (optind w)
                 :: map EvCmdOutput
                      (cr_output (cmd_func cmd (name :: args) (optind w) (pwd w)))
                 ++ [EvResetAfterCommands; EvPrintf (msg_nonzero status);
                     EvLinenoiseFree l])%list).
    { apply emitted_app. rewrite (repl_iteration_line c w l Hk), Hrun.
      unfold resetAfterCommands, report.
      replace (ESP_OK =? ESP_ERR_NOT_FOUND) with false by reflexivity.
      replace (ESP_OK =? ESP_ERR_INVALID_ARG) with false by reflexivity.
      replace (ESP_OK =? ESP_OK) with true by reflexivity.
      destruct (Z.eqb_spec status ESP_OK) as [E|_]; [contradiction|].
      cbn [andb negb]. world.
      rewrite at_dispatch_trace.
      repeat (rewrite <- app_assoc; cbn [app]). reflexivity. }
    rewrite He. unfold intake, history_calls.
    rewrite filter_app. cbn [filter is_printf app]. rewrite filter_app.
    rewrite (filter_disjoint is_printf is_command_activity (map EvCmdOutput _));
      [| intros [] Hq; (reflexivity || discriminate) | apply outputs_are_activity].
    destruct (history_save_path_ c); reflexivity.
  - unfold msg_nonzero. apply contains_after, contains_here.
  - unfold msg_nonzero.
    apply contains_after. apply (contains_after _ (fmt_0x_x status)).
    apply (contains_after _ " ("). apply contains_here.
  - apply next_pass_reads.
Qed.

(** C5.  A pass of the loop reads an empty line or one made of white
    space only (a line longer than the configured maximum is rejected
    before it is split, and is not meant here): the dispatcher answers
    "empty"; no callback is entered and nothing is printed; the history
    receives the line itself and nothing more; and the next pass starts
    by reading a line. *)
Theorem blank_line_ignored (c : Console) (w : World) (l : string) :
  keyboard w (reads w) = Some l ->
  blank l = true ->
  Z.of_nat (String.length l) <= max_cmdline_length (console_config w) ->
  let w' := repl_iteration c w in
  fst (fst (esp_console_run l (at_dispatch c l w))) = ESP_ERR_INVALID_ARG /\
  emitted w w' =
    (intake (render_prompt c w) c l
       ++ [EvConsoleRun l; EvResetAfterCommands; EvLinenoiseFree l])%list /\
  count is_invoke (emitted w w') = 0%nat /\
  count is_printf (emitted w w') = 0%nat /\
  filter is_history_add (emitted w w') = [EvHistoryAdd l] /\
  exists rest,
    emitted w' (repl_iteration c w') = EvLinenoise (render_prompt c w') :: rest.
Proof.
  intros Hk Hb Hlen w'. subst w'.
  destruct (at_dispatch_state c l w) as (_ & _ & Hc & _).
  assert (Hrun : esp_console_run l (at_dispatch c l w) =
                 (ESP_ERR_INVALID_ARG, 0, emit [EvConsoleRun l] (at_dispatch c l w))).
  { apply run_empty; [rewrite Hc; assumption | apply split_blank; exact Hb]. }
  assert (He : emitted w (repl_iteration c w) =
               (intake (render_prompt c w) c l
                  ++ [EvConsoleRun l; EvResetAfterCommands;
                      EvLinenoiseFree l])%list).
  { apply emitted_app. rewrite (repl_iteration_line c w l Hk), Hrun.
    unfold resetAfterCommands, report.
    cbn [ESP_ERR_NOT_FOUND ESP_ERR_INVALID_ARG Z.eqb Pos.eqb].
    world. rewrite at_dispatch_trace, <- !app_assoc. reflexivity. }
  rewrite Hrun, He. split; [reflexivity|]. split; [reflexivity|].
  split; [|split; [|split]]; try apply next_pass_reads;
    unfold intake, history_calls, count;
    destruct (history_save_path_ c); reflexivity.
Qed.

(** C8 (as amended).  A pass of the loop that read a line makes its
    calls in this order: the line is taken in; the dispatcher runs, and
    with it at most one callback; [resetAfterCommands] runs; at most one
    message is printed; the line is released; and the next pass starts
    by reading a line. *)
Theorem pass_order (c : Console) (w : World) (l : string) :
  keyboard w (reads w) = Some l ->
  let w' := repl_iteration c w in
  (exists d msgs,
      emitted w w' =
        (intake (render_prompt c w) c l
           ++ EvConsoleRun l :: d
           ++ EvResetAfterCommands :: map EvPrintf msgs
           ++ [EvLinenoiseFree l])%list /\
      Forall (fun e => is_command_activity e = true) d /\
      (count is_invoke d <= 1)%nat /\
      (List.length msgs <= 1)%nat) /\
  exists rest,
    emitted w' (repl_iteration c w') = EvLinenoise (render_prompt c w') :: rest.
Proof.
  intros Hk w'. subst w'. split; [|apply next_pass_reads].
  destruct (iteration_shape c w l Hk) as (d & msgs & Ht & Hact & Hone & _ & Hlen & _).
  exists d, msgs. split; [apply emitted_app; exact Ht|]. auto.
Qed.

(** C10.  A pass of the loop that read a line [l], whatever [l] is (a
    command, a line of spaces, a name that is not registered), first
    hands it to the history, then saves the history to the configured
    path when there is one, and only then calls the dispatcher; the
    rest of the pass touches the history no more. *)
Theorem line_enters_history_before_dispatch
    (c : Console) (w : World) (l : string) :
  keyboard w (reads w) = Some l ->
  exists rest,
    emitted w (repl_iteration c w) =
      ([EvLinenoise (render_prompt c w);
        EvLog LogDebug ("Line parsed: " ++ l)]
         ++ history_calls c l ++ EvConsoleRun l :: rest)%list /\
    count is_history_add rest = 0%nat /\
    count is_history_save rest = 0%nat /\
    count is_console_run rest = 0%nat.
Proof.
  intros Hk.
  destruct (iteration_shape c w l Hk) as (d & msgs & Ht & Hact & _).
  exists (d ++ EvResetAfterCommands :: map EvPrintf msgs
            ++ [EvLinenoiseFree l])%list.
  split.
  - rewrite (emitted_app _ _ _ Ht). unfold intake.
    rewrite <- app_assoc. reflexivity.
  - repeat split; rewrite count_app, count_cons;
      rewrite (count_disjoint _ is_command_activity d);
      try solve [ intros [] Hq; (reflexivity || discriminate) | exact Hact ];
      rewrite tail_counts;
      solve [ intros [] Hq; (reflexivity || discriminate) | reflexivity ].
Qed.

(** C6.  Every pass of the loop shows one prompt: the template in which
    [%pwd%] is replaced by the working directory of that moment.  The
    template ["%pwd% > "] shown in [/data] reads ["/data > "], and a
    template without [%pwd%] is shown as it is. *)
Theorem prompt_rendering (c : Console) (w : World) :
  (exists rest,
      emitted w (repl_iteration c w) =
        EvLinenoise (WString.replace "%pwd%" (console_getpwd w) (prompt_ c))
          :: rest /\
      count is_linenoise rest = 0%nat) /\
  WString.replace "%pwd%" "/data" "%pwd% > " = "/data > " /\
  (contains "%pwd%" (prompt_ c) = false -> render_prompt c w = prompt_ c).
Proof.
  split; [|split; [reflexivity | apply replace_absent]].
  destruct (keyboard w (reads w)) as [l|] eqn:Hk.
  - destruct (iteration_shape c w l Hk) as (d & msgs & Ht & Hact & _).
    rewrite (emitted_app _ _ _ Ht). unfold intake. cbn [app].
    eexists. split; [reflexivity|].
    rewrite count_cons, count_app, dispatch_counts;
      try solve [ intros [] Hq; (reflexivity || discriminate)
                | reflexivity | exact Hact ].
    unfold history_calls. destruct (history_save_path_ c); reflexivity.
  - destruct (iteration_null_shape c w Hk) as (Ht & _).
    rewrite (emitted_app _ _ _ Ht). eexists. split; reflexivity.
Qed.

(** C7.  With a history path configured, [beginCommon] reads the
    history file once, at that path; a pass of the loop that accepts a
    line writes the file once, right after it has handed the line to
    the history; and the worker never reads the file.  Without a path,
    neither startup nor the worker reads or writes a history file.  In
    either case [begin] as a whole reads the file at most once. *)
Theorem history_file_use (c : Console) (w : World) :
  (forall path, history_save_path_ c = Some path ->
     filter is_history_file (emitted w (beginCommon c w))
       = [EvHistoryLoad path] /\
     (forall l, keyboard w (reads w) = Some l ->
        exists rest,
          emitted w (repl_iteration c w) =
            ([EvLinenoise (render_prompt c w);
              EvLog LogDebug ("Line parsed: " ++ l);
              EvHistoryAdd l; EvHistorySave path] ++ rest)%list /\
          count is_history_file rest = 0%nat) /\
     (forall n, count is_history_load (emitted w (repl_task c n w)) = 0%nat)) /\
  (history_save_path_ c = None ->
     count is_history_file (emitted w (beginCommon c w)) = 0%nat /\
     (forall baud rxPin txPin channel,
        count is_history_file
          (emitted w (final (begin c baud rxPin txPin channel w))) = 0%nat) /\
     (forall n, count is_history_file (emitted w (repl_task c n w)) = 0%nat)) /\
  (forall baud rxPin txPin channel,
     (count is_history_load
        (emitted w (final (begin c baud rxPin txPin channel w))) <= 1)%nat).
Proof.
  split; [|split].
  - intros path Hpath. split; [|split].
    + destruct (beginCommon_shape c w) as (Ht & _).
      rewrite (emitted_app _ _ _ Ht).
      unfold history_load_calls, common_commands. rewrite Hpath. reflexivity.
    + intros l Hk.
      destruct (iteration_shape c w l Hk) as (d & msgs & Ht & Hact & _).
      rewrite (emitted_app _ _ _ Ht).
      unfold intake, history_calls. rewrite Hpath. cbn [app].
      eexists. split; [reflexivity|].
      apply dispatch_counts;
        solve [ intros [] Hq; (reflexivity || discriminate)
              | reflexivity | exact Hact ].
    + intros n. rewrite emitted_task, count_app.
      rewrite (proj2 (setup_no_history_file c w)).
      apply loop_counts. apply pass_never_loads.
  - intros Hnone. split; [|split].
    + destruct (beginCommon_shape c w) as (Ht & _).
      rewrite (emitted_app _ _ _ Ht).
      unfold history_load_calls, common_commands. rewrite Hnone. reflexivity.
    + intros baud rxPin txPin channel. unfold count.
      destruct (begin_history_file c baud rxPin txPin channel w) as [H|H];
        cbv zeta in H; rewrite H; [reflexivity|].
      unfold history_load_calls. rewrite Hnone. reflexivity.
    + intros n. rewrite emitted_task, count_app.
      rewrite (proj1 (setup_no_history_file c w)).
      apply loop_counts. intros w0. apply pass_without_path. exact Hnone.
  - intros baud rxPin txPin channel.
    etransitivity;
      [apply (count_le is_history_load is_history_file);
       intros [] Hq; (reflexivity || discriminate)|].
    unfold count.
    destruct (begin_history_file c baud rxPin txPin channel w) as [H|H];
      cbv zeta in H; rewrite H; [simpl; lia|].
    unfold history_load_calls. destruct (history_save_path_ c); simpl; lia.
Qed.

(** C4 (as amended).  [begin] with a channel that is not below
    [SOC_UART_NUM] (the count itself included) logs the error and
    returns: it calls nothing else, changes nothing, and creates no
    task.  With a channel below [SOC_UART_NUM], [begin] passes the check
    and goes on to set up the UART; when the three checked SDK calls
    answer [ESP_OK], it runs to its end and calls [xTaskCreate] once for
    the worker, which exists afterwards when that call answers pdTRUE. *)
Theorem begin_validates_channel
    (c : Console) (baud rxPin txPin channel : Z) (w : World) :
  let r := begin c baud rxPin txPin channel w in
  (SOC_UART_NUM <= channel ->
     aborted r = false /\
     emitted w (final r) =
       [EvLog LogDebug "Initialize console";
        EvLog LogError
          ("Serial number is invalid, please use numers from 0 to "
             ++ fmt_d (SOC_UART_NUM - 1))] /\
     tasks (final r) = tasks w /\
     console_config (final r) = console_config w /\
     registry (final r) = registry w /\
     stdin (final r) = stdin w /\
     stdout (final r) = stdout w /\
     stderr (final r) = stderr w) /\
  (channel < SOC_UART_NUM ->
     exists rest,
       emitted w (final r) =
         ([EvLog LogDebug "Initialize console"; EvFflush; EvFsync; EvSetvbuf;
           EvRxLineEndings channel; EvTxLineEndings channel;
           EvUartDriverInstall channel] ++ rest)%list) /\
  (channel < SOC_UART_NUM ->
   uart_driver_install channel = ESP_OK ->
   uart_param_config channel baud = ESP_OK ->
   esp_console_init (config_of c) = ESP_OK ->
     aborted r = false /\
     (exists before after,
         emitted w (final r)
           = (before ++ EvTaskCreate "console_repl" :: after)%list /\
         count is_task_create before = 0%nat /\
         count is_task_create after = 0%nat) /\
     tasks (final r) =
       (if xTaskCreate "console_repl"
        then tasks w ++ ["console_repl"] else tasks w)%list).
Proof.
  intros r. subst r. split; [|split; [apply begin_in_range_starts|]].
  - intros Hge.
    destruct (begin_cases c baud rxPin txPin channel w)
      as [(_ & Hr) | [(Hlt & _) | (Hlt & _)]]; try lia.
    rewrite Hr. cbn [final aborted]. world.
    split; [reflexivity|]. split; [|repeat split; reflexivity].
    apply emitted_app. world. rewrite <- app_assoc. reflexivity.
  - intros Hlt H1 H2 H3.
    destruct (begin_cases c baud rxPin txPin channel w)
      as [(Hge & _) | [(_ & err & w' & _ & _ & _ & _ & _ & _ & Hbad)
                      | (_ & _ & _ & _ & Hr)]];
      [lia | destruct Hbad as [Hbad|[Hbad|Hbad]]; contradiction |].
    rewrite Hr. cbn [final aborted].
    destruct (begin_completed_shape c baud channel w) as (Ht & _ & Hk).
    split; [reflexivity|]. split; [|exact Hk].
    rewrite (emitted_app _ _ _ Ht).
    do 2 eexists. split.
    + rewrite !app_assoc. reflexivity.
    + unfold reopen_calls, history_load_calls, common_commands.
      destruct (negb (channel =? CONFIG_ESP_CONSOLE_UART_NUM));
        destruct (xTaskCreate "console_repl");
        destruct (history_save_path_ c); split; reflexivity.
Qed.


End Claims.

(** * The claims on the sample session *)

(** In the sample session the worker reads NULL, then ["fail7 -x"],
    ["bogus"], three spaces and ["echo hi"]. *)

Lemma cursor_reset_each_dispatch_witness :
  (keyboard (sample_before_pass 1) (reads (sample_before_pass 1))
     = Some "fail7 -x" /\
   optind (@repl_iteration Sample.esp32 Sample.console (sample_before_pass 1))
     = optind_initial /\
   count is_reset (sample_pass 1) = 1%nat) /\
  (optind Sample.started = optind_initial /\
   Forall (fun z => z = optind_initial)
     (entry_cursors
        (emitted Sample.started
           (@repl_task Sample.esp32 Sample.console 5 Sample.started)))).
Proof.
  pose proof (@cursor_reset_each_dispatch Sample.esp32 Sample.console)
    as (Hpass & _ & Hrun).
  split.
  - split; [reflexivity|].
    pose proof (Hpass (sample_before_pass 1) "fail7 -x" eq_refl) as H.
    cbv zeta in H. destruct H as (H0 & H1 & _).
    split; [exact H0 | exact H1].
  - split; [reflexivity|].
    exact (proj2 (Hrun Sample.started 5%nat eq_refl)).
Defined.

Lemma unrecognized_command_reported_witness :
  keyboard (sample_before_pass 2) (reads (sample_before_pass 2)) = Some "bogus" /\
  @esp_console_split_argv Sample.esp32 "bogus" = ["bogus"] /\
  find_command_by_name "bogus" (registry (sample_before_pass 2)) = None /\
  filter is_printf (sample_pass 2) = [EvPrintf msg_unrecognized] /\
  count is_invoke (sample_pass 2) = 0%nat.
Proof.
  split; [reflexivity|]. split; [reflexivity|]. split; [reflexivity|].
  assert (Hlen : Z.of_nat (String.length "bogus")
                 <= max_cmdline_length (console_config (sample_before_pass 2)))
    by (vm_compute; discriminate).
  pose proof (@unrecognized_command_reported Sample.esp32 Sample.console
                (sample_before_pass 2) "bogus" "bogus" []
                eq_refl Hlen eq_refl eq_refl) as H.
  cbv zeta in H. destruct H as (_ & _ & H2 & H3).
  split; [exact H2 | exact H3].
Defined.

Lemma nonzero_status_reported_witness :
  keyboard (sample_before_pass 1) (reads (sample_before_pass 1))
    = Some "fail7 -x" /\
  find_command_by_name "fail7" (registry (sample_before_pass 1))
    = Some Sample.fail7 /\
  filter is_printf (sample_pass 1) = [EvPrintf (@msg_nonzero Sample.esp32 7)] /\
  contains "0x7" (@msg_nonzero Sample.esp32 7) = true /\
  contains "UNKNOWN ERROR" (@msg_nonzero Sample.esp32 7) = true.
Proof.
  split; [reflexivity|]. split; [reflexivity|].
  assert (Hlen : Z.of_nat (String.length "fail7 -x")
                 <= max_cmdline_length (console_config (sample_before_pass 1)))
    by (vm_compute; discriminate).
  assert (Hargs : Z.of_nat (List.length ["fail7"; "-x"])
                  <= max_cmdline_args (console_config (sample_before_pass 1)))
    by (vm_compute; discriminate).
  assert (Hne : cr_status
                  (cmd_func Sample.fail7 ["fail7"; "-x"]
                     (optind (sample_before_pass 1))
                     (pwd (sample_before_pass 1))) <> 0)
    by (vm_compute; discriminate).
  pose proof (@nonzero_status_reported Sample.esp32 Sample.console
                (sample_before_pass 1) "fail7 -x" "fail7" ["-x"] Sample.fail7
                eq_refl Hlen eq_refl eq_refl Hargs Hne) as H.
  destruct H as (H0 & H1 & H2 & _).
  split; [exact H0|]. split; [exact H1 | exact H2].
Defined.

Lemma blank_line_ignored_witness :
  keyboard (sample_before_pass 3) (reads (sample_before_pass 3)) = Some "   " /\
  @blank Sample.esp32 "   " = true /\
  sample_pass 3 =
    [EvLinenoise "/data > "; EvLog LogDebug "Line parsed:    ";
     EvHistoryAdd "   "; EvHistorySave "/data/.history";
     EvConsoleRun "   "; EvResetAfterCommands; EvLinenoiseFree "   "].
Proof.
  split; [reflexivity|]. split; [reflexivity|].
  assert (Hlen : Z.of_nat (String.length "   ")
                 <= max_cmdline_length (console_config (sample_before_pass 3)))
    by (vm_compute; discriminate).
  pose proof (@blank_line_ignored Sample.esp32 Sample.console
                (sample_before_pass 3) "   " eq_refl eq_refl Hlen) as H.
  cbv zeta in H. destruct H as (_ & H1 & _).
  exact H1.
Defined.

(** C8, counterexample.  The pass that dispatches ["bogus"] prints its
    message (entry 6 of the pass) before it releases the line (entry 7),
    not after. *)
Lemma pass_order_counterexample :
  sample_pass 2 =
    [EvLinenoise "/data > "; EvLog LogDebug "Line parsed: bogus";
     EvHistoryAdd "bogus"; EvHistorySave "/data/.history";
     EvConsoleRun "bogus"; EvResetAfterCommands;
     EvPrintf ("Unrecognized command" ++ LF); EvLinenoiseFree "bogus"] /\
  position is_reset (sample_pass 2) = Some 5%nat /\
  position is_printf (sample_pass 2) = Some 6%nat /\
  position is_free (sample_pass 2) = Some 7%nat.
Proof. repeat split; vm_compute; reflexivity. Qed.

Lemma pass_order_witness :
  keyboard (sample_before_pass 4) (reads (sample_before_pass 4))
    = Some "echo hi" /\
  exists d msgs,
    sample_pass 4 =
      (intake (render_prompt Sample.console (sample_before_pass 4))
              Sample.console "echo hi"
         ++ EvConsoleRun "echo hi" :: d
         ++ EvResetAfterCommands :: map EvPrintf msgs
         ++ [EvLinenoiseFree "echo hi"])%list.
Proof.
  split; [reflexivity|].
  destruct (@pass_order Sample.esp32 Sample.console (sample_before_pass 4)
              "echo hi" eq_refl) as ((d & msgs & H & _) & _).
  exists d, msgs. exact H.
Defined.

Lemma line_enters_history_before_dispatch_witness :
  keyboard (sample_before_pass 2) (reads (sample_before_pass 2)) = Some "bogus" /\
  exists rest,
    sample_pass 2 =
      ([EvLinenoise "/data > "; EvLog LogDebug "Line parsed: bogus";
        EvHistoryAdd "bogus"; EvHistorySave "/data/.history";
        EvConsoleRun "bogus"] ++ rest)%list.
Proof.
  split; [reflexivity|].
  destruct (@line_enters_history_before_dispatch Sample.esp32 Sample.console
              (sample_before_pass 2) "bogus" eq_refl) as (rest & H & _).
  exists rest. exact H.
Defined.

Lemma prompt_rendering_witness :
  contains "%pwd%" (prompt_ Sample.console_no_history) = false /\
  render_prompt Sample.console_no_history Sample.boot = "ESP32 > ".
Proof.
  split; [reflexivity|].
  exact (proj2 (proj2 (@prompt_rendering Sample.esp32 Sample.console_no_history
                         Sample.boot)) eq_refl).
Defined.

Lemma history_file_use_witness :
  history_save_path_ Sample.console = Some "/data/.history" /\
  filter is_history_file
    (emitted Sample.boot (@beginCommon Sample.esp32 Sample.console Sample.boot))
    = [EvHistoryLoad "/data/.history"] /\
  history_save_path_ Sample.console_no_history = None /\
  count is_history_file
    (emitted Sample.boot
       (@repl_task Sample.esp32 Sample.console_no_history 5 Sample.boot)) = 0%nat.
Proof.
  split; [reflexivity|]. split.
  - exact (proj1 (proj1 (@history_file_use Sample.esp32 Sample.console Sample.boot)
                    "/data/.history" eq_refl)).
  - split; [reflexivity|].
    exact (proj2 (proj2 (proj1 (proj2
             (@history_file_use Sample.esp32 Sample.console_no_history Sample.boot))
             eq_refl)) 5%nat).
Defined.

(** C4, counterexample.  On a board whose UART driver is already
    installed, [begin] on channel 1, which is below [SOC_UART_NUM] = 3,
    is stopped by its first [ESP_ERROR_CHECK]: it never calls
    [xTaskCreate] and no task exists afterwards. *)
Lemma begin_in_range_counterexample :
  let r := @begin Sample.esp32_uart_taken Sample.console 115200 3 1 1 Sample.boot in
  1 < @SOC_UART_NUM Sample.esp32_uart_taken /\
  aborted r = true /\
  trace (final r) =
    [EvLog LogDebug "Initialize console"; EvFflush; EvFsync; EvSetvbuf;
     EvRxLineEndings 1; EvTxLineEndings 1; EvUartDriverInstall 1;
     EvAbort ESP_FAIL] /\
  count is_task_create (trace (final r)) = 0%nat /\
  tasks (final r) = [].
Proof. repeat split; vm_compute; reflexivity. Qed.

Lemma begin_validates_channel_witness :
  (@SOC_UART_NUM Sample.esp32 <= 3 /\
   emitted Sample.boot
     (final (@begin Sample.esp32 Sample.console 115200 3 1 3 Sample.boot)) =
     [EvLog LogDebug "Initialize console";
      EvLog LogError "Serial number is invalid, please use numers from 0 to 2"]) /\
  (2 < @SOC_UART_NUM Sample.esp32 /\
   tasks (final (@begin Sample.esp32 Sample.console 115200 3 1 2 Sample.boot))
     = ["console_repl"]).
Proof.
  split.
  - split; [vm_compute; discriminate|].
    assert (Hge : @SOC_UART_NUM Sample.esp32 <= 3) by (vm_compute; discriminate).
    pose proof (proj1 (@begin_validates_channel Sample.esp32 Sample.console
                         115200 3 1 3 Sample.boot) Hge) as H.
    destruct H as (_ & H & _). exact H.
  - split; [reflexivity|].
    assert (Hlt : 2 < @SOC_UART_NUM Sample.esp32) by reflexivity.
    pose proof (proj2 (proj2 (@begin_validates_channel Sample.esp32 Sample.console
                                115200 3 1 2 Sample.boot))
                  Hlt eq_refl eq_refl eq_refl) as H.
    destruct H as (_ & _ & H). exact H.
Defined.



(** * Further properties of the engine *)

(** ** Whole runs of the loop *)

Lemma lines_of_app (sel : event -> option string) (t1 t2 : list event) :
  lines_of sel (t1 ++ t2) = (lines_of sel t1 ++ lines_of sel t2)%list.
Proof.
  induction t1 as [|e t1 IH]; cbn [lines_of app]; [reflexivity|].
  destruct (sel e); rewrite IH; reflexivity.
Qed.

Lemma lines_of_none (sel : event -> option string) (q : event -> bool)
      (t : list event) :
  (forall e, q e = true -> sel e = None) ->
  Forall (fun e => q e = true) t -> lines_of sel t = [].
Proof.
  intros Hq Hall. induction Hall as [|e t He _ IH]; cbn [lines_of]; [reflexivity|].
  rewrite (Hq e He). exact IH.
Qed.

Section RunFacts.

Context {P : Platform}.

Lemma pass_state (c : Console) (w : World) :
  keyboard (repl_iteration c w) = keyboard w /\
  reads (repl_iteration c w) = S (reads w).
Proof.
  destruct (keyboard w (reads w)) as [l|] eqn:Hk.
  - destruct (iteration_shape c w l Hk) as (d & msgs & _ & _ & _ & _ & _ & _ & Hkb & Hr).
    split; assumption.
  - destruct (iteration_null_shape c w Hk) as (_ & _ & Hkb & Hr).
    split; assumption.
Qed.

(** A selector that sees nothing of what a callback, [printf] or the
    bookkeeping of a pass does picks, in a pass, what it picks in the
    pass's own calls on the line. *)
Lemma pass_lines (sel : event -> option string) (c : Console) (w : World) :
  (forall e, is_command_activity e = true -> sel e = None) ->
  (forall e, is_printf e = true -> sel e = None) ->
  (forall p, sel (EvLinenoise p) = None) ->
  (forall lvl m, sel (EvLog lvl m) = None) ->
  (forall p, sel (EvHistorySave p) = None) ->
  sel EvResetAfterCommands = None ->
  lines_of sel (emitted w (repl_iteration c w)) =
    match keyboard w (reads w) with
    | Some l => lines_of sel [EvHistoryAdd l; EvConsoleRun l; EvLinenoiseFree l]
    | None => []
    end.
Proof.
  intros Hact Hpr Hln Hlog Hsave Hreset.
  destruct (keyboard w (reads w)) as [l|] eqn:Hk.
  - destruct (iteration_shape c w l Hk) as (d & msgs & Ht & Hd & _).
    rewrite (emitted_app _ _ _ Ht). unfold intake, history_calls.
    rewrite !lines_of_app. cbn [lines_of app].
    rewrite Hln, Hlog.
    rewrite lines_of_app. cbn [lines_of]. rewrite Hreset.
    rewrite lines_of_app.
    rewrite (lines_of_none sel is_command_activity d Hact Hd).
    rewrite (lines_of_none sel is_printf _ Hpr (printfs_are_printf msgs)).
    cbn [lines_of app].
    destruct (history_save_path_ c); cbn [lines_of]; rewrite ?Hsave;
      destruct (sel (EvHistoryAdd l)), (sel (EvConsoleRun l)),
               (sel (EvLinenoiseFree l)); reflexivity.
  - destruct (iteration_null_shape c w Hk) as (Ht & _).
    rewrite (emitted_app _ _ _ Ht). cbn [lines_of]. rewrite Hln, Hlog.
    reflexivity.
Qed.

Lemma loop_lines (sel : event -> option string) (c : Console) :
  (forall w, lines_of sel (emitted w (repl_iteration c w)) = line_read w) ->
  forall n w,
    lines_of sel (emitted w (repl_loop c n w))
      = received (keyboard w) (reads w) n.
Proof.
  intros Hpass n. induction n as [|n IH]; intros w.
  - cbn [repl_loop received]. rewrite emitted_same. reflexivity.
  - rewrite emitted_loop_step, lines_of_app, Hpass, IH.
    destruct (pass_state c w) as (Hk & Hr). rewrite Hk, Hr.
    unfold line_read. cbn [received].
    destruct (keyboard w (reads w)); reflexivity.
Qed.

(** A count that is 1 in a pass that read a line and 0 in one that did
    not is, over a run, the number of lines read. *)
Lemma loop_count_lines (p : event -> bool) (c : Console) :
  (forall w, count p (emitted w (repl_iteration c w))
             = List.length (line_read w)) ->
  forall n w,
    count p (emitted w (repl_loop c n w))
      = List.length (received (keyboard w) (reads w) n).
Proof.
  intros Hpass n. induction n as [|n IH]; intros w.
  - cbn [repl_loop received]. rewrite emitted_same. reflexivity.
  - rewrite emitted_loop_step, count_app, Hpass, IH.
    destruct (pass_state c w) as (Hk & Hr). rewrite Hk, Hr.
    unfold line_read. cbn [received].
    destruct (keyboard w (reads w)); reflexivity.
Qed.

Lemma loop_count_bound (p : event -> bool) (c : Console) :
  (forall w, (count p (emitted w (repl_iteration c w))
              <= List.length (line_read w))%nat) ->
  forall n w,
    (count p (emitted w (repl_loop c n w))
      <= List.length (received (keyboard w) (reads w) n))%nat.
Proof.
  intros Hpass n. induction n as [|n IH]; intros w.
  - cbn [repl_loop received]. rewrite emitted_same. cbn. lia.
  - rewrite emitted_loop_step, count_app.
    specialize (Hpass w). specialize (IH (repl_iteration c w)).
    destruct (pass_state c w) as (Hk & Hr). rewrite Hk, Hr in IH.
    unfold line_read in Hpass. cbn [received].
    destruct (keyboard w (reads w)); cbn [List.length] in *; lia.
Qed.

(** The calls of a pass that read [l], counted piece by piece. *)
Lemma pass_count (p : event -> bool) (c : Console) (w : World) (l : string) :
  keyboard w (reads w) = Some l ->
  exists d msgs,
    count p (emitted w (repl_iteration c w)) =
      (count p (intake (render_prompt c w) c l)
       + (count p [EvConsoleRun l] + (count p d
       + (count p [EvResetAfterCommands] + (count p (map EvPrintf msgs)
       + count p [EvLinenoiseFree l])))))%nat /\
    Forall (fun e => is_command_activity e = true) d /\
    (count is_invoke d <= 1)%nat /\
    (List.length msgs <= 1)%nat.
Proof.
  intros Hk.
  destruct (iteration_shape c w l Hk) as (d & msgs & Ht & Hd & Hone & _ & Hlen & _).
  exists d, msgs. split; [|auto].
  rewrite (emitted_app _ _ _ Ht).
  rewrite count_app, !count_cons, count_app, !count_cons, count_app, !count_cons.
  change (count p []) with 0%nat. lia.
Qed.

Lemma count_printfs (msgs : list string) :
  count is_printf (map EvPrintf msgs) = List.length msgs.
Proof. unfold count. induction msgs; cbn; auto. Qed.

Ltac other_kind :=
  solve [ intros [] Hq; (reflexivity || discriminate) ].

Lemma pass_reads_once (c : Console) (w : World) :
  count is_linenoise (emitted w (repl_iteration c w)) = 1%nat.
Proof.
  destruct (keyboard w (reads w)) as [l|] eqn:Hk.
  - destruct (pass_count is_linenoise c w l Hk) as (d & msgs & Hc & Hd & _).
    rewrite Hc.
    rewrite (count_disjoint _ is_command_activity d) by (other_kind || exact Hd).
    rewrite (count_disjoint _ is_printf (map EvPrintf msgs))
      by (other_kind || apply printfs_are_printf).
    unfold intake, history_calls. destruct (history_save_path_ c); reflexivity.
  - destruct (iteration_null_shape c w Hk) as (Ht & _).
    rewrite (emitted_app _ _ _ Ht). reflexivity.
Qed.

Lemma pass_resets (c : Console) (w : World) :
  count is_reset (emitted w (repl_iteration c w)) = List.length (line_read w) /\
  count is_console_run (emitted w (repl_iteration c w))
    = List.length (line_read w).
Proof.
  unfold line_read.
  destruct (keyboard w (reads w)) as [l|] eqn:Hk.
  - split.
    + destruct (pass_count is_reset c w l Hk) as (d & msgs & Hc & Hd & _).
      rewrite Hc.
      rewrite (count_disjoint _ is_command_activity d) by (other_kind || exact Hd).
      rewrite (count_disjoint _ is_printf (map EvPrintf msgs))
        by (other_kind || apply printfs_are_printf).
      unfold intake, history_calls. destruct (history_save_path_ c); reflexivity.
    + destruct (pass_count is_console_run c w l Hk) as (d & msgs & Hc & Hd & _).
      rewrite Hc.
      rewrite (count_disjoint _ is_command_activity d) by (other_kind || exact Hd).
      rewrite (count_disjoint _ is_printf (map EvPrintf msgs))
        by (other_kind || apply printfs_are_printf).
      unfold intake, history_calls. destruct (history_save_path_ c); reflexivity.
  - destruct (iteration_null_shape c w Hk) as (Ht & _).
    rewrite (emitted_app _ _ _ Ht). split; reflexivity.
Qed.

Lemma pass_invokes (c : Console) (w : World) :
  (count is_invoke (emitted w (repl_iteration c w))
     <= List.length (line_read w))%nat /\
  (count is_printf (emitted w (repl_iteration c w))
     <= List.length (line_read w))%nat.
Proof.
  unfold line_read.
  destruct (keyboard w (reads w)) as [l|] eqn:Hk.
  - split.
    + destruct (pass_count is_invoke c w l Hk) as (d & msgs & Hc & Hd & Hone & _).
      rewrite Hc.
      rewrite (count_disjoint _ is_printf (map EvPrintf msgs))
        by (other_kind || apply printfs_are_printf).
      unfold intake, history_calls.
      destruct (history_save_path_ c); cbn [List.length]; cbn; lia.
    + destruct (pass_count is_printf c w l Hk) as (d & msgs & Hc & Hd & _ & Hlen).
      rewrite Hc.
      rewrite (count_disjoint _ is_command_activity d) by (other_kind || exact Hd).
      rewrite count_printfs.
      unfold intake, history_calls.
      destruct (history_save_path_ c); cbn [List.length]; cbn; lia.
  - destruct (iteration_null_shape c w Hk) as (Ht & _).
    rewrite (emitted_app _ _ _ Ht). split; cbn; lia.
Qed.

Lemma pass_saves (c : Console) (w : World) :
  count is_history_save (emitted w (repl_iteration c w)) =
    match history_save_path_ c with
    | Some _ => List.length (line_read w)
    | None => 0%nat
    end.
Proof.
  unfold line_read.
  destruct (keyboard w (reads w)) as [l|] eqn:Hk.
  - destruct (pass_count is_history_save c w l Hk) as (d & msgs & Hc & Hd & _).
    rewrite Hc.
    rewrite (count_disjoint _ is_command_activity d) by (other_kind || exact Hd).
    rewrite (count_disjoint _ is_printf (map EvPrintf msgs))
      by (other_kind || apply printfs_are_printf).
    unfold intake, history_calls. destruct (history_save_path_ c); reflexivity.
  - destruct (iteration_null_shape c w Hk) as (Ht & _).
    rewrite (emitted_app _ _ _ Ht).
    destruct (history_save_path_ c); reflexivity.
Qed.

Lemma loop_reads (c : Console) (n : nat) (w : World) :
  reads (repl_loop c n w) = (reads w + n)%nat /\
  keyboard (repl_loop c n w) = keyboard w /\
  count is_linenoise (emitted w (repl_loop c n w)) = n.
Proof.
  revert w. induction n as [|n IH]; intros w.
  - cbn [repl_loop]. rewrite emitted_same. repeat split; cbn; lia.
  - rewrite emitted_loop_step, count_app. cbn [repl_loop].
    destruct (IH (repl_iteration c w)) as (Hr & Hk & Hc).
    destruct (pass_state c w) as (Hk' & Hr').
    rewrite Hr, Hk, Hc, Hk', Hr', pass_reads_once.
    repeat split; lia.
Qed.

(** X1.  Whatever the lines are and whatever their commands return, [n]
    passes of the loop call [linenoise] [n] times; the lines handed to
    the dispatcher are the lines [linenoise] returned, NULL returns left
    out, each once and in the order received; [resetAfterCommands] runs
    once per dispatched line; and there are at most as many callbacks
    entered and messages printed as lines dispatched. *)
Theorem loop_dispatches_in_order (c : Console) (n : nat) (w : World) :
  let t := emitted w (repl_loop c n w) in
  let input := received (keyboard w) (reads w) n in
  count is_linenoise t = n /\
  reads (repl_loop c n w) = (reads w + n)%nat /\
  lines_of run_line t = input /\
  count is_reset t = List.length input /\
  (count is_invoke t <= List.length input)%nat /\
  (count is_printf t <= List.length input)%nat.
Proof.
  intros t input. subst t input.
  destruct (loop_reads c n w) as (Hr & _ & Hc).
  split; [exact Hc|]. split; [exact Hr|]. split; [|split; [|split]].
  - apply loop_lines. intros w0.
    rewrite pass_lines by (other_kind || reflexivity).
    unfold line_read. destruct (keyboard w0 (reads w0)); reflexivity.
  - apply loop_count_lines. intros w0. apply pass_resets.
  - apply loop_count_bound. intros w0. apply pass_invokes.
  - apply loop_count_bound. intros w0. apply pass_invokes.
Qed.

(** X2.  Over any number of passes, the lines released with
    [linenoiseFree] are the lines [linenoise] returned, NULL returns
    left out: each is released once, in the order received, and nothing
    else is released. *)
Theorem loop_releases_every_line (c : Console) (n : nat) (w : World) :
  lines_of freed_line (emitted w (repl_loop c n w))
    = received (keyboard w) (reads w) n.
Proof.
  apply loop_lines. intros w0.
  rewrite pass_lines by (other_kind || reflexivity).
  unfold line_read. destruct (keyboard w0 (reads w0)); reflexivity.
Qed.

(** X3.  Over any number of passes, the lines handed to
    [linenoiseHistoryAdd] are the lines [linenoise] returned, NULL
    returns left out, in the order received; with a history path the
    history is saved once per such line, and without one it is never
    saved. *)
Theorem loop_history_follows_input (c : Console) (n : nat) (w : World) :
  let t := emitted w (repl_loop c n w) in
  let input := received (keyboard w) (reads w) n in
  lines_of added_line t = input /\
  count is_history_save t =
    match history_save_path_ c with
    | Some _ => List.length input
    | None => 0%nat
    end.
Proof.
  intros t input. subst t input. split.
  - apply loop_lines. intros w0.
    rewrite pass_lines by (other_kind || reflexivity).
    unfold line_read. destruct (keyboard w0 (reads w0)); reflexivity.
  - destruct (history_save_path_ c) eqn:Hp.
    + apply loop_count_lines. intros w0. rewrite pass_saves, Hp. reflexivity.
    + apply loop_counts. intros w0. rewrite pass_saves, Hp. reflexivity.
Qed.

End RunFacts.

(** ** Messages *)

Section MessageFacts.

Context {P : Platform}.

(** [report] touches nothing but the trace. *)
Lemma report_state (err : esp_err_t) (ret : Z) (w : World) :
  pwd (report err ret w) = pwd w /\
  registry (report err ret w) = registry w /\
  console_config (report err ret w) = console_config w /\
  dumb_mode (report err ret w) = dumb_mode w.
Proof.
  unfold report.
  destruct (err =? ESP_ERR_NOT_FOUND); [world; auto|].
  destruct (err =? ESP_ERR_INVALID_ARG); [auto|].
  destruct ((err =? ESP_OK) && negb (ret =? ESP_OK)); [world; auto|].
  destruct (negb (err =? ESP_OK)); world; auto.
Qed.

(** The messages of [report] begin with a letter. *)
Lemma report_plain (err : esp_err_t) (ret : Z) :
  exists msgs,
    Forall (fun m => starts_with_cr m = false) msgs /\
    forall w, trace (report err ret w) = (trace w ++ map EvPrintf msgs)%list.
Proof.
  unfold report.
  destruct (err =? ESP_ERR_NOT_FOUND).
  { exists [msg_unrecognized]. split; [repeat constructor | reflexivity]. }
  destruct (err =? ESP_ERR_INVALID_ARG).
  { exists []. split; [constructor | intros w; rewrite app_nil_r; reflexivity]. }
  destruct ((err =? ESP_OK) && negb (ret =? ESP_OK)).
  { exists [msg_nonzero ret]. split; [repeat constructor | reflexivity]. }
  destruct (negb (err =? ESP_OK)).
  { exists [msg_internal err]. split; [repeat constructor | reflexivity]. }
  exists []. split; [constructor | intros w; rewrite app_nil_r; reflexivity].
Qed.

Lemma count_printf_of_plain (m : string) (msgs : list string) :
  starts_with_cr m = true ->
  Forall (fun m' => starts_with_cr m' = false) msgs ->
  count (is_printf_of m) (map EvPrintf msgs) = 0%nat.
Proof.
  intros Hm Hall. unfold count.
  induction Hall as [|m' msgs Hm' _ IH]; cbn [map filter is_printf_of]; [reflexivity|].
  destruct (String.eqb_spec m' m) as [E|_]; [|exact IH].
  subst m'. congruence.
Qed.

(** No pass of the loop prints a text that begins with a carriage
    return. *)
Lemma pass_prints_plain (m : string) (c : Console) (w : World) :
  starts_with_cr m = true ->
  count (is_printf_of m) (emitted w (repl_iteration c w)) = 0%nat.
Proof.
  intros Hm.
  destruct (keyboard w (reads w)) as [l|] eqn:Hk.
  - pose proof (repl_iteration_line c w l Hk) as Hit.
    destruct (run_shape l (at_dispatch c l w)) as (d & Ht & Hd & _).
    destruct (esp_console_run l (at_dispatch c l w)) as [[err ret] w5].
    cbn [snd] in Ht.
    destruct (report_plain err ret) as (msgs & Hplain & Hrep).
    apply (f_equal trace) in Hit. unfold resetAfterCommands in Hit.
    cbn [linenoiseFree emit trace] in Hit. rewrite Hrep in Hit.
    cbn [set_optind emit trace] in Hit. rewrite Ht, at_dispatch_trace in Hit.
    repeat (rewrite <- app_assoc in Hit; cbn [app] in Hit).
    rewrite (emitted_app _ _ _ Hit).
    rewrite count_app, count_cons, count_app, count_cons, count_app, count_cons.
    rewrite (count_printf_of_plain m msgs Hm Hplain).
    rewrite (count_disjoint _ is_command_activity d);
      [| intros [] Hq; (reflexivity || discriminate) | exact Hd].
    unfold intake, history_calls. destruct (history_save_path_ c); reflexivity.
  - destruct (iteration_null_shape c w Hk) as (Ht & _).
    rewrite (emitted_app _ _ _ Ht). reflexivity.
Qed.

(** X4.  In a run of the worker of any length, the welcome banner is
    printed once, as the second call of the worker and so before any
    line is read, and never again; the dumb-terminal notice is printed
    once when the probe fails or the terminal was in dumb mode already,
    and not at all otherwise; the loop prints neither. *)
Theorem banner_printed_once (c : Console) (n : nat) (w : World) :
  let t := emitted w (repl_task c n w) in
  let dumb := (negb (linenoiseProbe =? 0) || dumb_mode w)%bool in
  (exists rest, t = EvSetvbuf :: EvPrintf banner :: EvProbe :: rest) /\
  count (is_printf_of banner) t = 1%nat /\
  count (is_printf_of dumb_notice) t = (if dumb then 1 else 0)%nat /\
  dumb_mode (repl_setup c w) = dumb.
Proof.
  intros t dumb. subst t dumb.
  rewrite emitted_task. split; [|split; [|split]].
  - unfold setup_calls. cbn [app]. eexists. reflexivity.
  - rewrite count_app, (loop_counts _ c (fun w0 => pass_prints_plain banner c w0 eq_refl)).
    unfold setup_calls.
    destruct (negb (linenoiseProbe =? 0)); destruct (dumb_mode w); reflexivity.
  - rewrite count_app, (loop_counts _ c (fun w0 => pass_prints_plain dumb_notice c w0 eq_refl)).
    unfold setup_calls.
    destruct (negb (linenoiseProbe =? 0)); destruct (dumb_mode w); reflexivity.
  - unfold repl_setup.
    destruct (negb (linenoiseProbe =? 0)); world;
      [| destruct (dumb_mode w) eqn:E]; world; auto.
Qed.

(** X5.  [report] looks at the status stored through [ret] only when the
    dispatcher answered [ESP_OK]: for any other answer the outcome is the
    same whatever [ret] holds, and an answer that is neither "not found"
    nor "empty" is reported as an internal error under its own name. *)
Theorem report_reads_ret_on_success_only (err : esp_err_t) (w : World) :
  err <> ESP_OK ->
  (forall r1 r2, report err r1 w = report err r2 w) /\
  (err <> ESP_ERR_NOT_FOUND -> err <> ESP_ERR_INVALID_ARG ->
   forall ret, report err ret w = printf (msg_internal err) w).
Proof.
  intros Hne. unfold report.
  destruct (Z.eqb_spec err ESP_OK) as [E|_]; [contradiction|].
  cbn [andb negb]. split.
  - intros r1 r2. reflexivity.
  - intros H1 H2 ret.
    destruct (Z.eqb_spec err ESP_ERR_NOT_FOUND); [contradiction|].
    destruct (Z.eqb_spec err ESP_ERR_INVALID_ARG); [contradiction|].
    reflexivity.
Qed.

(** X6.  After a pass that ran a command, the working directory is the
    one the command left and the registry is as before, but the cursor
    is 0 wherever the command left it; a command that returns 0 makes
    the pass print nothing; and the prompt of the next pass shows the
    directory the command left. *)
Theorem command_effects_after_pass
    (c : Console) (w : World) (l name : string) (args : list string)
    (cmd : Command) :
  keyboard w (reads w) = Some l ->
  Z.of_nat (String.length l) <= max_cmdline_length (console_config w) ->
  esp_console_split_argv l = name :: args ->
  find_command_by_name name (registry w) = Some cmd ->
  Z.of_nat (List.length (name :: args)) <= max_cmdline_args (console_config w) ->
  let r := cmd_func cmd (name :: args) (optind w) (pwd w) in
  let w' := repl_iteration c w in
  pwd w' = cr_pwd r /\
  optind w' = 0 /\
  registry w' = registry w /\
  (cr_status r = 0 -> count is_printf (emitted w w') = 0%nat) /\
  exists rest,
    emitted w' (repl_iteration c w') =
      EvLinenoise (WString.replace "%pwd%" (cr_pwd r) (prompt_ c)) :: rest.
Proof.
  intros Hk Hlen Hsplit Hfind Hargs r w'.
  destruct (at_dispatch_state c l w) as (Ho & Hr & Hc & Hp & _).
  pose proof (run_executed l (at_dispatch c l w) name args cmd) as Hrun.
  rewrite Hc, Hr, Ho, Hp in Hrun.
  specialize (Hrun Hlen Hsplit Hfind Hargs). cbn zeta in Hrun. fold r in Hrun.
  assert (Hw' : w' = linenoiseFree l
                  (report ESP_OK (cr_status r)
                     (resetAfterCommands
                        (apply_result r
                           (emit [EvInvoke name (name :: args) (optind w)]
                              (emit [EvConsoleRun l] (at_dispatch c l w))))))).
  { subst w'. rewrite (repl_iteration_line c w l Hk), Hrun. reflexivity. }
  assert (Hpwd : pwd w' = cr_pwd r).
  { rewrite Hw'. cbn [linenoiseFree emit pwd].
    rewrite (proj1 (report_state _ _ _)). reflexivity. }
  split; [exact Hpwd|]. split; [|split; [|split]].
  - destruct (iteration_shape c w l Hk) as (_ & _ & _ & _ & _ & _ & _ & H0 & _).
    exact H0.
  - rewrite Hw'. cbn [linenoiseFree emit registry].
    rewrite (proj1 (proj2 (report_state _ _ _))). unfold resetAfterCommands.
    world. exact Hr.
  - intros Hz.
    assert (Ht : trace w' =
                 (trace w ++ intake (render_prompt c w) c l
                    ++ EvConsoleRun l :: EvInvoke name (name :: args) (optind w)
                    :: map EvCmdOutput (cr_output r)
                    ++ [EvResetAfterCommands; EvLinenoiseFree l])%list).
    { rewrite Hw'. unfold report. rewrite Hz.
      cbn [ESP_OK ESP_ERR_NOT_FOUND ESP_ERR_INVALID_ARG Z.eqb andb negb].
      unfold resetAfterCommands. world. rewrite at_dispatch_trace.
      repeat (rewrite <- app_assoc; cbn [app]). reflexivity. }
    rewrite (emitted_app _ _ _ Ht).
    rewrite count_app, !count_cons, count_app, !count_cons.
    rewrite (count_disjoint is_printf is_command_activity (map EvCmdOutput _));
      [| intros [] Hq; (reflexivity || discriminate) | apply outputs_are_activity].
    unfold intake, history_calls. destruct (history_save_path_ c); reflexivity.
  - destruct (next_pass_reads c w') as (rest & Hrest).
    exists rest. rewrite Hrest. unfold render_prompt, console_getpwd.
    rewrite Hpwd. reflexivity.
Qed.

End MessageFacts.

(** ** Startup, step by step *)

Section StartupSteps.

Context {P : Platform}.

(** X7.  [begin] on a channel in range stops at the first checked SDK
    call that does not answer [ESP_OK], with that call's answer as its
    error: a failed driver installation is followed by no parameter
    configuration, a failed parameter configuration by no console
    initialisation, and a failed console initialisation by nothing at
    all.  In each case nothing is registered, no stream is replaced and
    no task is created. *)
Theorem begin_stops_at_first_failure
    (c : Console) (baud rxPin txPin channel : Z) (w : World) :
  channel < SOC_UART_NUM ->
  let r := begin c baud rxPin txPin channel w in
  let e1 := uart_driver_install channel in
  let e2 := uart_param_config channel baud in
  let e3 := esp_console_init (config_of c) in
  let first6 := [EvLog LogDebug "Initialize console"; EvFflush; EvFsync;
                 EvSetvbuf; EvRxLineEndings channel; EvTxLineEndings channel] in
  (e1 <> ESP_OK ->
     exists w', r = Abort e1 w' /\
       emitted w w' =
         (first6 ++ [EvUartDriverInstall channel; EvAbort e1])%list) /\
  (e1 = ESP_OK -> e2 <> ESP_OK ->
     exists w', r = Abort e2 w' /\
       emitted w w' =
         (first6 ++ [EvUartDriverInstall channel;
                     EvUartParamConfig channel baud; EvAbort e2])%list) /\
  (e1 = ESP_OK -> e2 = ESP_OK -> e3 <> ESP_OK ->
     exists w', r = Abort e3 w' /\
       emitted w w' = (transport_calls c baud channel ++ [EvAbort e3])%list) /\
  (aborted r = true ->
     registry (final r) = registry w /\ tasks (final r) = tasks w /\
     stdin (final r) = stdin w /\ stdout (final r) = stdout w /\
     stderr (final r) = stderr w /\ optind (final r) = optind w).
Proof.
  intros Hlt r e1 e2 e3 first6. subst r e1 e2 e3 first6.
  unfold begin, bind, lift.
  destruct (Z.geb_spec channel SOC_UART_NUM) as [Hge|_]; [lia|].
  unfold ESP_ERROR_CHECK, bind, call_uart_driver_install,
    call_uart_param_config, call_esp_console_init, call_xTaskCreate, ret.
  fold (config_of c).
  destruct (Z.eqb_spec (uart_driver_install channel) ESP_OK) as [E1|E1].
  2:{ repeat split; try contradiction; try (intros; contradiction).
      intros _. eexists. split; [reflexivity|].
      apply emitted_app. world.
      repeat (rewrite <- app_assoc; cbn [app]). reflexivity. }
  destruct (Z.eqb_spec (uart_param_config channel baud) ESP_OK) as [E2|E2].
  2:{ repeat split; try contradiction; try (intros; contradiction).
      intros _ _. eexists. split; [reflexivity|].
      apply emitted_app. world.
      repeat (rewrite <- app_assoc; cbn [app]). reflexivity. }
  destruct (Z.eqb_spec (esp_console_init (config_of c)) ESP_OK) as [E3|E3].
  2:{ repeat split; try contradiction; try (intros; contradiction).
      intros _ _ _. eexists. split; [reflexivity|].
      apply emitted_app. world. unfold transport_calls.
      repeat (rewrite <- app_assoc; cbn [app]). reflexivity. }
  repeat split; try (intros; contradiction).
  all: destruct (negb (channel =? CONFIG_ESP_CONSOLE_UART_NUM));
    destruct (xTaskCreate "console_repl"); cbn [aborted]; discriminate.
Qed.


(** What [begin] leaves behind when it runs to its end. *)
Lemma begin_completed_state (c : Console) (baud channel : Z) (w : World) :
  let w' := begin_completed c baud channel w in
  console_config w' = config_of c /\
  registry w' = (registry w ++ common_commands)%list /\
  optind w' = optind w /\
  pwd w' = pwd w /\
  keyboard w' = keyboard w /\
  reads w' = reads w /\
  dumb_mode w' = dumb_mode w.
Proof.
  intros w'. subst w'.
  unfold begin_completed, common_commands,
    beginCommon, registerCoreCommands, seq, with_history_path,
    esp_console_register_help_command, registerCommand,
    esp_console_cmd_register, reopen_streams.
  destruct (negb (channel =? CONFIG_ESP_CONSOLE_UART_NUM));
    destruct (xTaskCreate "console_repl");
    destruct (history_save_path_ c);
    cbn [fold_left map]; world;
    repeat (rewrite <- app_assoc; cbn [app]); repeat split; reflexivity.
Qed.

(** X8.  When [begin] runs to its end, the creation of the worker is its
    last call but for the error log of a failed creation: the UART is set
    up, the console initialised, the streams replaced if they are to be,
    the line editor configured, the history loaded and the help and core
    commands registered, in this order, before [xTaskCreate] is called.
    A failed creation is logged and [begin] returns all the same: nothing
    of what was set up is undone, and no task exists. *)
Theorem begin_creates_worker_last
    (c : Console) (baud rxPin txPin channel : Z) (w : World) :
  channel < SOC_UART_NUM ->
  uart_driver_install channel = ESP_OK ->
  uart_param_config channel baud = ESP_OK ->
  esp_console_init (config_of c) = ESP_OK ->
  let r := begin c baud rxPin txPin channel w in
  emitted w (final r) =
    (transport_calls c baud channel
       ++ reopen_calls channel
       ++ [EvSetCompletionCallback; EvSetHintsCallback;
           EvHistorySetMaxLen (max_history_len_ c);
           EvSetMaxLineLen (max_cmdline_len_ c)]
       ++ history_load_calls c
       ++ map (fun cmd => EvRegister (cmd_name cmd)) common_commands
       ++ EvTaskCreate "console_repl"
       :: (if xTaskCreate "console_repl" then []
           else [EvLog LogError "Could not start REPL task!"]))%list /\
  (xTaskCreate "console_repl" = false ->
     aborted r = false /\
     tasks (final r) = tasks w /\
     console_config (final r) = config_of c /\
     registry (final r) = (registry w ++ common_commands)%list).
Proof.
  intros Hlt H1 H2 H3 r. subst r.
  destruct (begin_cases c baud rxPin txPin channel w)
    as [(Hge & _) | [(_ & err & w' & _ & _ & _ & _ & _ & _ & Hbad)
                    | (_ & _ & _ & _ & Hr)]];
    [lia | destruct Hbad as [Hbad|[Hbad|Hbad]]; contradiction |].
  rewrite Hr. cbn [final aborted].
  destruct (begin_completed_shape c baud channel w) as (Ht & _ & Hk).
  destruct (begin_completed_state c baud channel w) as (Hc & Hreg & _).
  split.
  - rewrite (emitted_app _ _ _ Ht). unfold transport_calls.
    repeat (rewrite <- app_assoc; cbn [app]). reflexivity.
  - intros Hno. rewrite Hno in Hk. auto.
Qed.

(** X9.  After a [begin] that ran to its end, the dispatcher is
    configured with the limits of the console, and the line editor was
    given the same maximum line length; the registry holds what it held
    before, followed by the help command and the six core commands; and
    startup has read no line, dispatched nothing and left the cursor and
    the working directory alone. *)
Theorem begin_configures_console
    (c : Console) (baud rxPin txPin channel : Z) (w : World) :
  channel < SOC_UART_NUM ->
  uart_driver_install channel = ESP_OK ->
  uart_param_config channel baud = ESP_OK ->
  esp_console_init (config_of c) = ESP_OK ->
  let w' := final (begin c baud rxPin txPin channel w) in
  max_cmdline_length (console_config w') = max_cmdline_len_ c /\
  max_cmdline_args (console_config w') = max_cmdline_args_ c /\
  In (EvSetMaxLineLen (max_cmdline_length (console_config w'))) (emitted w w') /\
  registry w' = (registry w ++ help_command :: core_commands)%list /\
  count is_linenoise (emitted w w') = 0%nat /\
  count is_console_run (emitted w w') = 0%nat /\
  reads w' = reads w /\
  optind w' = optind w /\
  pwd w' = pwd w.
Proof.
  intros Hlt H1 H2 H3 w'. subst w'.
  destruct (begin_cases c baud rxPin txPin channel w)
    as [(Hge & _) | [(_ & err & w' & _ & _ & _ & _ & _ & _ & Hbad)
                    | (_ & _ & _ & _ & Hr)]];
    [lia | destruct Hbad as [Hbad|[Hbad|Hbad]]; contradiction |].
  rewrite Hr. cbn [final].
  destruct (begin_completed_shape c baud channel w) as (Ht & _).
  destruct (begin_completed_state c baud channel w)
    as (Hc & Hreg & Ho & Hp & _ & Hrd & _).
  rewrite Hc, Hreg, Ho, Hp, Hrd, (emitted_app _ _ _ Ht).
  split; [reflexivity|]. split; [reflexivity|]. split; [|split; [reflexivity|]].
  - cbn [config_of max_cmdline_length].
    apply in_or_app. right. apply in_or_app. right.
    apply in_or_app. left. cbn. auto.
  - unfold reopen_calls, history_load_calls, common_commands.
    destruct (negb (channel =? CONFIG_ESP_CONSOLE_UART_NUM));
      destruct (xTaskCreate "console_repl");
      destruct (history_save_path_ c); repeat split; reflexivity.
Qed.

End StartupSteps.

(** ** Registration *)

Lemma resolvable_app (name : string) (reg more : list Command) :
  resolvable name reg = true -> resolvable name (reg ++ more) = true.
Proof.
  unfold resolvable, find_command_by_name.
  induction reg as [|cmd reg IH]; cbn [find app]; [discriminate|].
  destruct (String.eqb (cmd_name cmd) name); [reflexivity | exact IH].
Qed.

Lemma resolvable_in (cmd : Command) (reg : list Command) :
  In cmd reg -> resolvable (cmd_name cmd) reg = true.
Proof.
  unfold resolvable, find_command_by_name.
  induction reg as [|cmd' reg IH]; cbn [find In]; [contradiction|].
  intros [E|Hin].
  - subst cmd'. rewrite String.eqb_refl. reflexivity.
  - destruct (String.eqb (cmd_name cmd') (cmd_name cmd)); [reflexivity|].
    apply IH. exact Hin.
Qed.

Lemma resolvable_found (name : string) (reg : list Command) :
  resolvable name reg = true ->
  exists cmd, find_command_by_name name reg = Some cmd /\ cmd_name cmd = name.
Proof.
  unfold resolvable. destruct (find_command_by_name name reg) as [cmd|] eqn:E;
    [|discriminate].
  intros _. exists cmd. split; [reflexivity|].
  apply (find_command_name name reg cmd E).
Qed.

Section RegistrationFacts.

Context {P : Platform}.

(** Registering a list of commands one after the other. *)
Lemma register_batch (cmds : list Command) (w : World) :
  let w' := seq (map registerCommand cmds) w in
  registry w' = (registry w ++ cmds)%list /\
  trace w' = (trace w ++ map (fun cmd => EvRegister (cmd_name cmd)) cmds)%list /\
  optind w' = optind w /\ console_config w' = console_config w /\
  tasks w' = tasks w /\ pwd w' = pwd w.
Proof.
  revert w. unfold seq.
  induction cmds as [|cmd cmds IH]; intros w; cbn [map fold_left].
  - rewrite !app_nil_r. repeat split; reflexivity.
  - destruct (IH (registerCommand cmd w)) as (Hr & Ht & Ho & Hc & Hk & Hp).
    cbv zeta in *. rewrite Hr, Ht, Ho, Hc, Hk, Hp.
    unfold registerCommand, esp_console_cmd_register. world.
    rewrite <- !app_assoc. repeat split; reflexivity.
Qed.

(** X10.  Each of the four registration functions appends its batch to
    the registry, in source order, and does nothing else: what was
    registered before stays in place, a name that could be resolved
    before can be resolved after, and every command of the batch can be
    resolved by its name afterwards. *)
Theorem registration_batches
    (f : World -> World) (batch : list Command) (w : World) :
  In (f, batch)
     [(registerCoreCommands, core_commands);
      (registerSystemCommands, system_commands);
      (registerNetworkCommands, network_commands);
      (registerVFSCommands, vfs_commands)] ->
  registry (f w) = (registry w ++ batch)%list /\
  emitted w (f w) = map (fun cmd => EvRegister (cmd_name cmd)) batch /\
  (forall name, resolvable name (registry w) = true ->
                resolvable name (registry (f w)) = true) /\
  (forall cmd, In cmd batch -> resolvable (cmd_name cmd) (registry (f w)) = true) /\
  optind (f w) = optind w /\ console_config (f w) = console_config w.
Proof.
  intros Hin.
  assert (Hf : f w = seq (map registerCommand batch) w).
  { cbn [In] in Hin.
    destruct Hin as [E|[E|[E|[E|[]]]]]; injection E as <- <-; reflexivity. }
  rewrite Hf.
  destruct (register_batch batch w) as (Hr & Ht & Ho & Hc & _).
  cbv zeta in *. rewrite Hr, Ho, Hc, (emitted_app _ _ _ Ht).
  repeat split.
  - intros name. apply resolvable_app.
  - intros cmd Hcmd. apply resolvable_in. apply in_or_app. right. exact Hcmd.
Qed.

End RegistrationFacts.

(** ** The device path and the status code *)

Lemma substring_length (n : nat) (s : string) :
  (String.length (substring 0 n s) <= n)%nat.
Proof.
  revert s. induction n as [|n IH]; intros s.
  - destruct s; cbn; lia.
  - destruct s as [|c s]; cbn [substring String.length]; [lia|].
    specialize (IH s). lia.
Qed.

(** X11.  The device path always fits the 12-byte buffer of [begin]: it
    has at most 11 characters.  The price is paid by channels of two or
    three digits, whose number is cut after its first digit: such a
    channel gets the path of the channel that digit names. *)
Theorem uart_path_fits_buffer (channel : Z) :
  (String.length (uart_path channel) <= 11)%nat /\
  (In channel uint8_values -> 10 <= channel ->
   uart_path channel =
     uart_path (if channel <? 100 then channel / 10 else channel / 100)).
Proof.
  split.
  - unfold uart_path, snprintf. apply substring_length.
  - intros Hin Hge.
    assert (Hall : forallb
              (fun ch => if 10 <=? ch
                         then String.eqb (uart_path ch)
                                (uart_path (if ch <? 100 then ch / 10
                                            else ch / 100))
                         else true) uint8_values = true)
      by (vm_compute; reflexivity).
    rewrite forallb_forall in Hall. specialize (Hall channel Hin).
    destruct (Z.leb_spec 10 channel); [|lia].
    apply String.eqb_eq. exact Hall.
Qed.

(** X12.  The status in the message of a failed command is the status
    seen as an unsigned 32-bit number: read back as a hexadecimal
    numeral it gives the status modulo 2^32, so a status from 0 to
    2^32 - 1 reads back as itself and [ESP_FAIL], -1, as 2^32 - 1. *)
Theorem status_code_reads_back (status : Z) :
  Z.of_N (HexString.to_N (fmt_0x_x status)) = status mod 2 ^ 32 /\
  (0 <= status < 2 ^ 32 ->
   Z.of_N (HexString.to_N (fmt_0x_x status)) = status).
Proof.
  assert (H : Z.of_N (HexString.to_N (fmt_0x_x status)) = status mod 2 ^ 32).
  { unfold fmt_0x_x, to_uint32. rewrite HexString.to_N_of_N.
    apply Z2N.id. apply Z.mod_pos_bound. lia. }
  split; [exact H|].
  intros Hr. rewrite H. apply Z.mod_small. exact Hr.
Qed.

(** ** From startup to dispatch *)

Section SessionFacts.

Context {P : Platform}.

(** The dispatcher leaves the registry and its configuration alone. *)
Lemma run_keeps_registry (l : string) (w : World) :
  registry (snd (esp_console_run l w)) = registry w /\
  console_config (snd (esp_console_run l w)) = console_config w.
Proof.
  unfold esp_console_run.
  destruct (_ <? _); [split; reflexivity|].
  destruct (esp_console_split_argv l) as [|name args]; [split; reflexivity|].
  destruct (find_command_by_name name (registry w)); [|split; reflexivity].
  destruct (_ <? _); split; reflexivity.
Qed.

Lemma pass_keeps_registry (c : Console) (w : World) :
  registry (repl_iteration c w) = registry w /\
  console_config (repl_iteration c w) = console_config w.
Proof.
  destruct (keyboard w (reads w)) as [l|] eqn:Hk.
  - rewrite (repl_iteration_line c w l Hk).
    destruct (run_keeps_registry l (at_dispatch c l w)) as (Hr & Hc).
    destruct (at_dispatch_state c l w) as (_ & Hr' & Hc' & _).
    destruct (esp_console_run l (at_dispatch c l w)) as [[err ret] w5].
    cbn [snd] in *. cbn [linenoiseFree emit registry console_config].
    destruct (report_state err ret (resetAfterCommands w5)) as (_ & Hr2 & Hc2 & _).
    rewrite Hr2, Hc2. unfold resetAfterCommands. world.
    rewrite Hr, Hc, Hr', Hc'. split; reflexivity.
  - rewrite (repl_iteration_null c w Hk). world. split; reflexivity.
Qed.

Lemma task_keeps_registry (c : Console) (n : nat) (w : World) :
  registry (repl_task c n w) = registry w /\
  console_config (repl_task c n w) = console_config w.
Proof.
  unfold repl_task.
  assert (Hs : registry (repl_setup c w) = registry w /\
               console_config (repl_setup c w) = console_config w).
  { unfold repl_setup. destruct (negb (linenoiseProbe =? 0)); world;
      [| destruct (dumb_mode w)]; world; split; reflexivity. }
  destruct Hs as (Hr & Hc). rewrite <- Hr, <- Hc.
  generalize (repl_setup c w). clear. intros w.
  revert w. induction n as [|n IH]; intros w; cbn [repl_loop]; [auto|].
  destruct (IH (repl_iteration c w)) as (H1 & H2).
  destruct (pass_keeps_registry c w) as (H3 & H4).
  rewrite H1, H2, H3, H4. auto.
Qed.

(** The calls of a pass that runs a command. *)
Lemma executed_pass (c : Console) (w : World) (l name : string)
      (args : list string) (cmd : Command) :
  keyboard w (reads w) = Some l ->
  Z.of_nat (String.length l) <= max_cmdline_length (console_config w) ->
  esp_console_split_argv l = name :: args ->
  find_command_by_name name (registry w) = Some cmd ->
  Z.of_nat (List.length (name :: args)) <= max_cmdline_args (console_config w) ->
  let r := cmd_func cmd (name :: args) (optind w) (pwd w) in
  emitted w (repl_iteration c w) =
    (intake (render_prompt c w) c l
       ++ EvConsoleRun l :: EvInvoke name (name :: args) (optind w)
       :: map EvCmdOutput (cr_output r)
       ++ EvResetAfterCommands
       :: map EvPrintf (if cr_status r =? 0 then [] else [msg_nonzero (cr_status r)])
       ++ [EvLinenoiseFree l])%list.
Proof.
  intros Hk Hlen Hsplit Hfind Hargs r.
  destruct (at_dispatch_state c l w) as (Ho & Hr & Hc & Hp & _).
  pose proof (run_executed l (at_dispatch c l w) name args cmd) as Hrun.
  rewrite Hc, Hr, Ho, Hp in Hrun.
  specialize (Hrun Hlen Hsplit Hfind Hargs). cbn zeta in Hrun. fold r in Hrun.
  apply emitted_app. rewrite (repl_iteration_line c w l Hk), Hrun.
  unfold resetAfterCommands, report.
  replace (ESP_OK =? ESP_ERR_NOT_FOUND) with false by reflexivity.
  replace (ESP_OK =? ESP_ERR_INVALID_ARG) with false by reflexivity.
  replace (ESP_OK =? ESP_OK) with true by reflexivity.
  change (cr_status r =? ESP_OK) with (cr_status r =? 0).
  destruct (cr_status r =? 0); cbn [andb negb map]; world;
    rewrite at_dispatch_trace;
    repeat (rewrite <- app_assoc; cbn [app]); reflexivity.
Qed.

(** X13.  After a [begin] that ran to its end, in every pass of the
    worker, a line within the limits of the console whose leading token
    is the name of the help command or of a core command is dispatched
    to a callback registered under that name, entered with the cursor of
    that moment; the line is not reported as unrecognized. *)
Theorem core_command_runs_after_begin
    (c : Console) (baud rxPin txPin channel : Z) (w : World)
    (n : nat) (cmd : Command) (l : string) (args : list string) :
  channel < SOC_UART_NUM ->
  uart_driver_install channel = ESP_OK ->
  uart_param_config channel baud = ESP_OK ->
  esp_console_init (config_of c) = ESP_OK ->
  In cmd (help_command :: core_commands) ->
  let w1 := repl_task c n (final (begin c baud rxPin txPin channel w)) in
  keyboard w1 (reads w1) = Some l ->
  esp_console_split_argv l = cmd_name cmd :: args ->
  Z.of_nat (String.length l) <= max_cmdline_len_ c ->
  Z.of_nat (List.length (cmd_name cmd :: args)) <= max_cmdline_args_ c ->
  let t := emitted w1 (repl_iteration c w1) in
  In (EvInvoke (cmd_name cmd) (cmd_name cmd :: args) (optind w1)) t /\
  count (is_printf_of msg_unrecognized) t = 0%nat.
Proof.
  intros Hlt H1 H2 H3 Hin w1 Hk Hsplit Hlen Hargs t. subst t.
  destruct (begin_cases c baud rxPin txPin channel w)
    as [(Hge & _) | [(_ & err & w' & _ & _ & _ & _ & _ & _ & Hbad)
                    | (_ & _ & _ & _ & Hr)]];
    [lia | destruct Hbad as [Hbad|[Hbad|Hbad]]; contradiction |].
  destruct (task_keeps_registry c n (final (begin c baud rxPin txPin channel w)))
    as (Hreg & Hcfg).
  fold w1 in Hreg, Hcfg. rewrite Hr in Hreg, Hcfg. cbn [final] in Hreg, Hcfg.
  destruct (begin_completed_state c baud channel w) as (Hc & Hrg & _).
  rewrite Hc in Hcfg. rewrite Hrg in Hreg.
  assert (Hres : resolvable (cmd_name cmd) (registry w1) = true).
  { rewrite Hreg. apply resolvable_in. apply in_or_app. right. exact Hin. }
  destruct (resolvable_found _ _ Hres) as (cmd' & Hfind & Hname).
  assert (Hlen' : Z.of_nat (String.length l) <= max_cmdline_length (console_config w1))
    by (rewrite Hcfg; exact Hlen).
  assert (Hargs' : Z.of_nat (List.length (cmd_name cmd :: args))
                   <= max_cmdline_args (console_config w1))
    by (rewrite Hcfg; exact Hargs).
  rewrite (executed_pass c w1 l (cmd_name cmd) args cmd' Hk Hlen' Hsplit Hfind Hargs').
  split.
  - apply in_or_app. right. right. left. reflexivity.
  - rewrite count_app, !count_cons, count_app, !count_cons, count_app.
    rewrite (count_disjoint _ is_command_activity (map EvCmdOutput _));
      [| intros [] Hq; (reflexivity || discriminate) | apply outputs_are_activity].
    unfold intake, history_calls.
    destruct (history_save_path_ c); destruct (cr_status _ =? 0); reflexivity.
Qed.

End SessionFacts.

(** ** The further properties on concrete inputs *)

Lemma report_reads_ret_on_success_only_witness :
  ESP_FAIL <> ESP_OK /\
  @report Sample.esp32 ESP_FAIL 0 Sample.boot
    = @report Sample.esp32 ESP_FAIL 7 Sample.boot /\
  @report Sample.esp32 ESP_FAIL 7 Sample.boot
    = printf ("Internal error: ESP_FAIL" ++ LF) Sample.boot.
Proof.
  assert (Hne : ESP_FAIL <> ESP_OK) by discriminate.
  split; [exact Hne|].
  destruct (@report_reads_ret_on_success_only Sample.esp32 ESP_FAIL Sample.boot Hne)
    as (Hsame & Hint).
  split; [apply Hsame|].
  apply Hint; discriminate.
Defined.

Lemma command_effects_after_pass_witness :
  keyboard sample_chdir_world (reads sample_chdir_world) = Some "chdir /tmp" /\
  pwd (@repl_iteration Sample.esp32 Sample.console sample_chdir_world) = "/tmp" /\
  optind (@repl_iteration Sample.esp32 Sample.console sample_chdir_world) = 0 /\
  exists rest,
    emitted (@repl_iteration Sample.esp32 Sample.console sample_chdir_world)
      (@repl_iteration Sample.esp32 Sample.console
         (@repl_iteration Sample.esp32 Sample.console sample_chdir_world))
    = EvLinenoise "/tmp > " :: rest.
Proof.
  split; [reflexivity|].
  assert (Hlen : Z.of_nat (String.length "chdir /tmp")
                 <= max_cmdline_length (console_config sample_chdir_world))
    by (vm_compute; discriminate).
  assert (Hargs : Z.of_nat (List.length ["chdir"; "/tmp"])
                  <= max_cmdline_args (console_config sample_chdir_world))
    by (vm_compute; discriminate).
  pose proof (@command_effects_after_pass Sample.esp32 Sample.console
                sample_chdir_world "chdir /tmp" "chdir" ["/tmp"] sample_chdir
                eq_refl Hlen eq_refl eq_refl Hargs) as H.
  cbv zeta in H. destruct H as (Hp & Ho & _ & _ & rest & Hrest).
  split; [exact Hp|]. split; [exact Ho|].
  exists rest. exact Hrest.
Defined.

Lemma begin_stops_at_first_failure_witness :
  1 < @SOC_UART_NUM Sample.esp32_uart_taken /\
  @uart_driver_install Sample.esp32_uart_taken 1 <> ESP_OK /\
  exists w',
    @begin Sample.esp32_uart_taken Sample.console 115200 3 1 1 Sample.boot
      = Abort ESP_FAIL w' /\
    emitted Sample.boot w' =
      [EvLog LogDebug "Initialize console"; EvFflush; EvFsync; EvSetvbuf;
       EvRxLineEndings 1; EvTxLineEndings 1; EvUartDriverInstall 1;
       EvAbort ESP_FAIL].
Proof.
  assert (Hlt : 1 < @SOC_UART_NUM Sample.esp32_uart_taken) by reflexivity.
  assert (Hne : @uart_driver_install Sample.esp32_uart_taken 1 <> ESP_OK)
    by discriminate.
  split; [exact Hlt|]. split; [exact Hne|].
  pose proof (@begin_stops_at_first_failure Sample.esp32_uart_taken
                Sample.console 115200 3 1 1 Sample.boot Hlt) as H.
  cbv zeta in H. destruct H as (H1 & _).
  exact (H1 Hne).
Defined.

Lemma begin_creates_worker_last_witness :
  2 < @SOC_UART_NUM Sample.esp32 /\
  emitted Sample.boot sample_begun =
    [EvLog LogDebug "Initialize console"; EvFflush; EvFsync; EvSetvbuf;
     EvRxLineEndings 2; EvTxLineEndings 2; EvUartDriverInstall 2;
     EvUartParamConfig 2 115200; EvUartUseDriver 2;
     EvConsoleInit (config_of Sample.console);
     EvFopen "/dev/uart/2" "r"; EvFopen "/dev/uart/2" "w";
     EvSetCompletionCallback; EvSetHintsCallback; EvHistorySetMaxLen 40;
     EvSetMaxLineLen 256; EvHistoryLoad "/data/.history";
     EvRegister "help"; EvRegister "clear"; EvRegister "history";
     EvRegister "echo"; EvRegister "multiline_mode"; EvRegister "env";
     EvRegister "declare"; EvTaskCreate "console_repl"].
Proof.
  assert (Hlt : 2 < @SOC_UART_NUM Sample.esp32) by reflexivity.
  split; [exact Hlt|].
  exact (proj1 (@begin_creates_worker_last Sample.esp32 Sample.console
                  115200 3 1 2 Sample.boot Hlt eq_refl eq_refl eq_refl)).
Defined.

Lemma begin_configures_console_witness :
  2 < @SOC_UART_NUM Sample.esp32 /\
  max_cmdline_length (console_config sample_begun) = 256 /\
  max_cmdline_args (console_config sample_begun) = 8 /\
  reads sample_begun = 0%nat.
Proof.
  assert (Hlt : 2 < @SOC_UART_NUM Sample.esp32) by reflexivity.
  split; [exact Hlt|].
  pose proof (@begin_configures_console Sample.esp32 Sample.console
                115200 3 1 2 Sample.boot Hlt eq_refl eq_refl eq_refl) as H.
  cbv zeta in H. destruct H as (H1 & H2 & _ & _ & _ & _ & H3 & _).
  split; [exact H1|]. split; [exact H2 | exact H3].
Defined.

Lemma registration_batches_witness :
  In (@registerVFSCommands Sample.esp32, @vfs_commands Sample.esp32)
     [(@registerCoreCommands Sample.esp32, @core_commands Sample.esp32);
      (@registerSystemCommands Sample.esp32, @system_commands Sample.esp32);
      (@registerNetworkCommands Sample.esp32, @network_commands Sample.esp32);
      (@registerVFSCommands Sample.esp32, @vfs_commands Sample.esp32)] /\
  emitted Sample.started (@registerVFSCommands Sample.esp32 Sample.started) =
    [EvRegister "cat"; EvRegister "cd"; EvRegister "pwd"; EvRegister "ls";
     EvRegister "mv"; EvRegister "cp"; EvRegister "rm"; EvRegister "rmdir";
     EvRegister "edit"] /\
  resolvable "fail7"
    (registry (@registerVFSCommands Sample.esp32 Sample.started)) = true.
Proof.
  assert (Hin : In (@registerVFSCommands Sample.esp32, @vfs_commands Sample.esp32)
     [(@registerCoreCommands Sample.esp32, @core_commands Sample.esp32);
      (@registerSystemCommands Sample.esp32, @system_commands Sample.esp32);
      (@registerNetworkCommands Sample.esp32, @network_commands Sample.esp32);
      (@registerVFSCommands Sample.esp32, @vfs_commands Sample.esp32)])
    by (simpl; auto).
  split; [exact Hin|].
  destruct (@registration_batches Sample.esp32 _ _ Sample.started Hin)
    as (_ & He & Hkeep & _).
  split; [exact He|].
  apply Hkeep. reflexivity.
Defined.

Lemma uart_path_fits_buffer_witness :
  In 12 uint8_values /\ 10 <= 12 /\ uart_path 12 = uart_path 1.
Proof.
  assert (Hin : In 12 uint8_values).
  { unfold uint8_values. change 12 with (Z.of_nat 12).
    apply in_map. apply in_seq. lia. }
  assert (Hge : 10 <= 12) by lia.
  split; [exact Hin|]. split; [exact Hge|].
  exact (proj2 (uart_path_fits_buffer 12) Hin Hge).
Defined.

Lemma status_code_reads_back_witness :
  0 <= 7 < 2 ^ 32 /\ Z.of_N (HexString.to_N (fmt_0x_x 7)) = 7.
Proof.
  assert (Hr : 0 <= 7 < 2 ^ 32) by lia.
  split; [exact Hr|].
  exact (proj2 (status_code_reads_back 7) Hr).
Defined.

Lemma core_command_runs_after_begin_witness :
  keyboard (@repl_task Sample.esp32 Sample.console 4 sample_begun)
           (reads (@repl_task Sample.esp32 Sample.console 4 sample_begun))
    = Some "echo hi" /\
  In (EvInvoke "echo" ["echo"; "hi"] 0)
     (emitted (@repl_task Sample.esp32 Sample.console 4 sample_begun)
        (@repl_iteration Sample.esp32 Sample.console
           (@repl_task Sample.esp32 Sample.console 4 sample_begun))).
Proof.
  split; [reflexivity|].
  assert (Hlt : 2 < @SOC_UART_NUM Sample.esp32) by reflexivity.
  assert (Hin : In (@getEchoCommand Sample.esp32)
                   (@help_command Sample.esp32 :: @core_commands Sample.esp32))
    by (simpl; auto).
  assert (Hlen : Z.of_nat (String.length "echo hi")
                 <= max_cmdline_len_ Sample.console)
    by (vm_compute; discriminate).
  assert (Hargs : Z.of_nat (List.length
                    (cmd_name (@getEchoCommand Sample.esp32) :: ["hi"]))
                  <= max_cmdline_args_ Sample.console)
    by (vm_compute; discriminate).
  exact (proj1 (@core_command_runs_after_begin Sample.esp32 Sample.console
                  115200 3 1 2 Sample.boot 4 (@getEchoCommand Sample.esp32)
                  "echo hi" ["hi"]
                  Hlt eq_refl eq_refl eq_refl Hin eq_refl eq_refl Hlen Hargs)).
Defined.
